(** * NEXUS AI vehicle analytics demo: simulator and inference engine

    Shallow embedding of [MockOBDSimulator] and [MLInferenceEngine] of
    [src/script.js], and the properties of the specification stated over it.

    Numbers.  The code is embedded twice.  In the first embedding a
    JavaScript Number is an exact rational ([Q]), compared up to [==]: it
    carries the properties that do not depend on rounding, the ranges of
    the simulator, the shape of its history, its mode changes, the wear
    counter and the definedness of the inference.  In the second, the
    module [Binary64], a Number is the binary64 float it is at run time
    and every operation is rounded: it carries the values the inference
    reports.  The tick counter is a natural number.

    Environment.  [Math.random()], [Date.now()] and [Math.sqrt] are the
    three things the code takes from its host.  They are section variables:
    [random k] is the value returned by the k-th call of [Math.random()]
    of the process, [sinNow k] the value of [Math.sin(Date.now() / 1000)]
    at the k-th reading of the clock, [Math_sqrt] the square-root
    function.  The [World] record counts the calls made so far. *)

From Stdlib Require Import String QArith Qminmax Qround ZArith List Bool Lia Lqa.
From Stdlib Require Import Floats.
From Stdlib Require Uint63.
Import ListNotations.

Local Open Scope Q_scope.

(** ** Numbers *)

(** [a > b] and [a < b] of JavaScript, on rationals. *)
Definition Qgtb (a b : Q) : bool := negb (Qle_bool a b).
Definition Qltb (a b : Q) : bool := negb (Qle_bool b a).

Definition Math_min (a b : Q) : Q := Qmin a b.
Definition Math_max (a b : Q) : Q := Qmax a b.

(** [Math.round]: the nearest integer, halves towards plus infinity. *)
Definition Math_round (x : Q) : Z := Qfloor (x + (1 # 2)).
Definition Math_floor (x : Q) : Z := Qfloor x.

(** [Math.pow(x, 2)]. *)
Definition Math_pow2 (x : Q) : Q := x * x.

(** ** Data model *)

Definition HISTORY_SIZE : nat := 100.

(** The object literal of [this.state], also the shape of [this.target]. *)
Record VehicleState : Type := mkState {
  rpm : Q;
  speed : Q;
  throttle : Q;
  load : Q;
  coolant : Q;
  battery : Q;
  fuelEff : Q
}.

(** [this.history]: one array per channel, oldest sample first. *)
Record History : Type := mkHistory {
  h_rpm : list Q;
  h_speed : list Q;
  h_load : list Q;
  h_coolant : list Q;
  h_throttle : list Q;
  h_fuelEff : list Q
}.

Record MockOBDSimulator : Type := mkSim {
  state : VehicleState;
  history : History;
  target : VehicleState;
  isAccelerating : bool;
  accelCounter : nat
}.

(** Calls made to the host so far. *)
Record World : Type := mkWorld {
  rngPos : nat;
  clockPos : nat
}.

Definition world0 : World := mkWorld 0 0.

(** [new Array(n).fill(v)]. *)
Definition Array_fill (n : nat) (v : Q) : list Q := repeat v n.

(** [arr.push(v); arr.shift();] *)
Definition push_shift (arr : list Q) (v : Q) : list Q := tl (arr ++ [v]).

(** [arr.slice(-n)]: the last [n] elements, the whole array when shorter. *)
Definition slice_last (n : nat) (arr : list Q) : list Q :=
  skipn (length arr - n) arr.

Definition initial_state : VehicleState :=
  mkState 1000 0 0 20 90 13.8 8.5.

(** [constructor()] of [MockOBDSimulator]. *)
Definition new_simulator : MockOBDSimulator :=
  mkSim initial_state
        (mkHistory (Array_fill HISTORY_SIZE 1000)
                   (Array_fill HISTORY_SIZE 0)
                   (Array_fill HISTORY_SIZE 20)
                   (Array_fill HISTORY_SIZE 90)
                   (Array_fill HISTORY_SIZE 0)
                   (Array_fill HISTORY_SIZE 8.5))
        initial_state
        false
        0.

Definition lerp (start end_ amt : Q) : Q := (1 - amt) * start + amt * end_.

(** [updateHistory()], reading the state [st] just computed. *)
Definition updateHistory (st : VehicleState) (h : History) : History :=
  mkHistory (push_shift (h_rpm h) (rpm st))
            (push_shift (h_speed h) (speed st))
            (push_shift (h_load h) (load st))
            (push_shift (h_coolant h) (coolant st))
            (push_shift (h_throttle h) (throttle st))
            (push_shift (h_fuelEff h) (fuelEff st)).

Section Simulator.

Variable random : nat -> Q.
Variable sinNow : nat -> Q.

(** [Math.random()]: the next draw; the world counts it. *)
Definition Math_random (w : World) : Q * World :=
  (random (rngPos w), mkWorld (S (rngPos w)) (clockPos w)).

(** [Math.sin(Date.now() / 1000)]. *)
Definition sin_clock (w : World) : Q * World :=
  (sinNow (clockPos w), mkWorld (rngPos w) (S (clockPos w))).

(** Lines 27-31 of [tick]: the counter, and the debounced flip.  The
    draw is made only when the counter exceeds 50 ([&&] short-circuits). *)
Definition flip_step (sim : MockOBDSimulator) (w : World)
  : bool * nat * World :=
  let c := S (accelCounter sim) in
  if (50 <? c)%nat then
    let (r, w1) := Math_random w in
    if Qgtb r 0.95 then (negb (isAccelerating sim), 0%nat, w1)
    else (isAccelerating sim, c, w1)
  else (isAccelerating sim, c, w).

(** Lines 32-44: the targets pushed up or down, before the rpm jitter
    and the coolant rule.  [battery] is not touched. *)
Definition push_targets (acc : bool) (t : VehicleState) : VehicleState :=
  if acc then
    mkState (Math_min (rpm t + 60) 5500)
            (Math_min (speed t + 0.8) 140)
            (Math_min (throttle t + 2) 85)
            (Math_min (load t + 1.5) 95)
            (coolant t)
            (battery t)
            (Math_min (fuelEff t + 0.5) 25)
  else
    mkState (Math_max (rpm t - 80) 800)
            (Math_max (speed t - 0.4) 0)
            (Math_max (throttle t - 3) 0)
            (Math_max (load t - 2) 15)
            (coolant t)
            (battery t)
            (Math_max (fuelEff t - 0.2) 4.5).

(** Lines 46-47: the coolant target, from the load of the current state. *)
Definition coolant_target (ld tc : Q) : Q :=
  if Qgtb ld 70 then tc + 0.02 else Math_max (tc - 0.01) 88.

(** [tick()]. *)
Definition tick (sw : MockOBDSimulator * World) : MockOBDSimulator * World :=
  let (sim, w) := sw in
  let '(acc, c, w1) := flip_step sim w in
  let t1 := push_targets acc (target sim) in
  let (r, w2) := Math_random w1 in
  let t2 := mkState (rpm t1 + (r - 0.5) * 30)
                    (speed t1) (throttle t1) (load t1)
                    (coolant_target (load (state sim)) (coolant t1))
                    (battery t1) (fuelEff t1) in
  let s := state sim in
  let (sn, w3) := sin_clock w2 in
  let s' := mkState (lerp (rpm s) (rpm t2) 0.08)
                    (lerp (speed s) (speed t2) 0.04)
                    (lerp (throttle s) (throttle t2) 0.1)
                    (lerp (load s) (load t2) 0.08)
                    (lerp (coolant s) (coolant t2) 0.05)
                    (13.5 + sn * 0.2)
                    (lerp (fuelEff s) (fuelEff t2) 0.05) in
  (mkSim s' (updateHistory s' (history sim)) t2 acc c, w3).

(** [n] calls of [tick()] in a row, nothing else drawing in between. *)
Fixpoint ticks (n : nat) (sw : MockOBDSimulator * World)
  : MockOBDSimulator * World :=
  match n with
  | O => sw
  | S k => tick (ticks k sw)
  end.

(** The simulator and the world after [n] ticks of a fresh process. *)
Definition run (n : nat) : MockOBDSimulator * World :=
  ticks n (new_simulator, world0).

(** The simulator after [n] ticks of a fresh process, where tick number
    [k] (from 0) finds the world [wk k]: other callers of
    [Math.random()] may have drawn any number of values in between. *)
Fixpoint sim_after (wk : nat -> World) (n : nat) : MockOBDSimulator :=
  match n with
  | O => new_simulator
  | S k => fst (tick (sim_after wk k, wk k))
  end.

(** Whether tick number [k] of that process changes the drive mode. *)
Definition flips_at (wk : nat -> World) (k : nat) : bool :=
  negb (Bool.eqb (isAccelerating (sim_after wk k))
                 (isAccelerating (sim_after wk (S k)))).

End Simulator.

(** ** Inference engine, in exact arithmetic

    The engine over rationals.  It returns exactly when the program does,
    and its wear counter is the program's up to rounding; the scores,
    the variance, the aggression and the class it reports are those of
    exact arithmetic, which the program's are not: these are stated over
    [Binary64] below, and this reading serves to compare them with. *)

Record Scores : Type := mkScores {
  hygiene : Z;
  thermal : Q;
  engine : Q;
  electrical : Q
}.

Record Rul : Type := mkRul {
  val : Z;
  prob : string
}.

(** [feat]; [rpmVol] is kept as the number, before [toFixed(1)] prints it. *)
Record Feat : Type := mkFeat {
  feat_throttle : Z;
  feat_rpmVol : Q;
  feat_eff : Z
}.

Record Driver : Type := mkDriver {
  type : string;
  conf : Z;
  feat : Feat;
  insight : string
}.

Record InferenceResult : Type := mkResult {
  scores : Scores;
  rul : Rul;
  anomaly : bool;
  driver : Driver
}.

(** [MLInferenceEngine]; [this.sim] is passed to [runInference]. *)
Record MLInferenceEngine : Type := mkEngine {
  rulKms : Q
}.

Definition new_engine : MLInferenceEngine := mkEngine 15000.

(** [arr.reduce(f)] without a seed: a TypeError ([None]) on the empty
    array, otherwise the fold seeded with the first element. *)
Definition reduce1 (f : Q -> Q -> Q) (arr : list Q) : option Q :=
  match arr with
  | [] => None
  | x :: xs => Some (fold_left f xs x)
  end.

Definition Qlength (arr : list Q) : Q := inject_Z (Z.of_nat (length arr)).

(** [calculateVariance(arr)], without rounding. *)
Definition calculateVariance (arr : list Q) : option Q :=
  match reduce1 Qplus arr with
  | None => None
  | Some total =>
      let mean := total / Qlength arr in
      Some (fold_left (fun a b => a + Math_pow2 (b - mean)) arr 0 / Qlength arr)
  end.

(** The loop of [calculateAggression], from index [i] on: [prev] is
    [arr[i - 1]], [rest] is [arr[i ..]]. *)
Fixpoint aggression_loop (prev : Q) (rest : list Q) (sumDelta : Q) : Q :=
  match rest with
  | [] => sumDelta
  | x :: rest' =>
      aggression_loop x rest'
        (if Qgtb x prev then sumDelta + (x - prev) else sumDelta)
  end.

(** [calculateAggression(arr)], without rounding. *)
Definition calculateAggression (arr : list Q) : Q :=
  let sumDelta := match arr with
                  | [] => 0
                  | x :: rest => aggression_loop x rest 0
                  end in
  Math_min 100 (sumDelta * 2).

(** Lines 102-118: the class, the confidence and the insight. *)
Definition classify (throttleAggression spd rpmVol jitter : Q)
  : string * Q * string :=
  if Qgtb throttleAggression 60 then
    ("AGGRESSIVE", 92,
     "High throttle aggression detected. Impact on fuel +12%.")%string
  else if Qltb throttleAggression 20 && Qgtb spd 30 then
    ("ECO - OPTIMAL", 96,
     "Smooth acceleration profile. Fuel efficiency maximized.")%string
  else if Qgtb rpmVol 8 then
    ("ERRATIC", 78,
     "Unstable RPM detected. Check transmission linkage.")%string
  else
    ("NORMAL", 85 + jitter * 10, "Behavior within normal baseline.")%string.

Section Inference.

Variable random : nat -> Q.
Variable Math_sqrt : Q -> Q.

(** Lines 80-81. *)
Definition thermalHealth (data : VehicleState) : Q :=
  if Qgtb (coolant data) 100 then 100 - (coolant data - 100) * 5 else 100.

(** Lines 82-84. *)
Definition engineHealth (data : VehicleState) : Q :=
  let e := if Qgtb (rpm data) 4500 then 100 - 5 else 100 in
  if Qgtb (load data) 90 then e - 2 else e.

(** Lines 85-86. *)
Definition elecHealth (data : VehicleState) : Q :=
  if Qltb (battery data) 12.8 then 100 - 10 else 100.

(** [runInference()], for the simulator [sim] the engine holds, without
    rounding.  [None] is the TypeError of [calculateVariance]; it is
    raised before the wear counter is touched. *)
Definition runInference (e : MLInferenceEngine) (sim : MockOBDSimulator)
    (w : World) : option (InferenceResult * MLInferenceEngine * World) :=
  let data := state sim in
  let history := history sim in
  let hygieneScore :=
    Math_round (thermalHealth data * 0.4 + engineHealth data * 0.4
                + elecHealth data * 0.2) in
  let recentRpm := slice_last 20 (h_rpm history) in
  match calculateVariance recentRpm with
  | None => None
  | Some rpmVariance =>
      let isAnomaly := Qgtb rpmVariance 5000 in
      let degradationFactor := (load data / 100) * 2 in
      let rulKms' := rulKms e - degradationFactor * 0.1 in
      let throttleAggression := calculateAggression (h_throttle history) in
      let rpmVol := Math_sqrt rpmVariance / 100 in
      let (r, w1) := Math_random random w in
      let '(driverClass, confidence, insight) :=
        classify throttleAggression (speed data) rpmVol r in
      Some (mkResult
              (mkScores hygieneScore (thermalHealth data)
                        (engineHealth data) (elecHealth data))
              (mkRul (Math_floor rulKms')
                     (if Qgtb (coolant data) 102 then "High" else "Low"))
              isAnomaly
              (mkDriver driverClass (Math_round confidence)
                        (mkFeat (Math_round throttleAggression) rpmVol
                                (Math_round (100 - throttleAggression * 0.6)))
                        insight),
            mkEngine rulKms', w1)
  end.

End Inference.


Set Warnings "-inexact-float".

(** ** The program in binary64

    The same code with its Numbers as the binary64 floats they are, every
    operation rounded as the host rounds it.  The values the inference
    reports are stated over this model; [Math.random()],
    [Math.sin(Date.now() / 1000)] and [Math.sqrt] stay the host's. *)

Module Binary64.

Local Open Scope float_scope.

(** [a > b] of JavaScript: false when either side is NaN.  [a < b] is
    [ltb]. *)
Definition gtb (a b : float) : bool := b <? a.

(** The integer [z] as a Number; exact for [|z| < 2^53]. *)
Definition of_Z (z : Z) : float :=
  if (z <? 0)%Z then - of_uint63 (Uint63.of_Z (- z))
  else of_uint63 (Uint63.of_Z z).


(** [Math.round]: the nearest integer, halves towards plus infinity; the
    sign of a zero result is that of the argument. *)
Definition Math_round (x : float) : float :=
  match Prim2SF x with
  | S754_finite s m e =>
      if (0 <=? e)%Z then x
      else
        let n := Z.shiftr (2 * cond_Zopp s (Zpos m) + 2 ^ (- e)) (1 - e) in
        if (n =? 0)%Z then (if s then neg_zero else zero) else of_Z n
  | _ => x
  end.

Definition Math_floor (x : float) : float :=
  match Prim2SF x with
  | S754_finite s m e =>
      if (0 <=? e)%Z then x
      else of_Z (Z.shiftr (cond_Zopp s (Zpos m)) (- e))
  | _ => x
  end.

(** [Math.min] and [Math.max] of two arguments: NaN when one is NaN, and
    -0 below +0. *)
Definition Math_min (a b : float) : float :=
  if is_nan a then a else if is_nan b then b
  else if a <? b then a else if b <? a then b
  else if get_sign a then a else b.

Definition Math_max (a b : float) : float :=
  if is_nan a then a else if is_nan b then b
  else if b <? a then a else if a <? b then b
  else if get_sign a then b else a.

(** [Math.pow(x, 2)]: the rounded product [x * x], which is what the
    exponent 2 returns. *)
Definition Math_pow2 (x : float) : float := x * x.

Record VehicleState : Type := mkState {
  rpm : float;
  speed : float;
  throttle : float;
  load : float;
  coolant : float;
  battery : float;
  fuelEff : float
}.

Record History : Type := mkHistory {
  h_rpm : list float;
  h_speed : list float;
  h_load : list float;
  h_coolant : list float;
  h_throttle : list float;
  h_fuelEff : list float
}.

Record MockOBDSimulator : Type := mkSim {
  state : VehicleState;
  history : History;
  target : VehicleState;
  isAccelerating : bool;
  accelCounter : nat
}.

Definition Array_fill (n : nat) (v : float) : list float := repeat v n.

Definition push_shift (arr : list float) (v : float) : list float :=
  tl (arr ++ [v]).

Definition slice_last (n : nat) (arr : list float) : list float :=
  skipn (length arr - n) arr.

Definition initial_state : VehicleState :=
  mkState 1000 0 0 20 90 13.8 8.5.

Definition new_simulator : MockOBDSimulator :=
  mkSim initial_state
        (mkHistory (Array_fill HISTORY_SIZE 1000)
                   (Array_fill HISTORY_SIZE 0)
                   (Array_fill HISTORY_SIZE 20)
                   (Array_fill HISTORY_SIZE 90)
                   (Array_fill HISTORY_SIZE 0)
                   (Array_fill HISTORY_SIZE 8.5))
        initial_state
        false
        0.

Definition lerp (start end_ amt : float) : float :=
  (1 - amt) * start + amt * end_.

Definition updateHistory (st : VehicleState) (h : History) : History :=
  mkHistory (push_shift (h_rpm h) (rpm st))
            (push_shift (h_speed h) (speed st))
            (push_shift (h_load h) (load st))
            (push_shift (h_coolant h) (coolant st))
            (push_shift (h_throttle h) (throttle st))
            (push_shift (h_fuelEff h) (fuelEff st)).

Section Simulator.

Variable random : nat -> float.
Variable sinNow : nat -> float.

Definition Math_random (w : World) : float * World :=
  (random (rngPos w), mkWorld (S (rngPos w)) (clockPos w)).

Definition sin_clock (w : World) : float * World :=
  (sinNow (clockPos w), mkWorld (rngPos w) (S (clockPos w))).

Definition flip_step (sim : MockOBDSimulator) (w : World)
  : bool * nat * World :=
  let c := S (accelCounter sim) in
  if (50 <? c)%nat then
    let (r, w1) := Math_random w in
    if gtb r 0.95 then (negb (isAccelerating sim), 0%nat, w1)
    else (isAccelerating sim, c, w1)
  else (isAccelerating sim, c, w).

Definition push_targets (acc : bool) (t : VehicleState) : VehicleState :=
  if acc then
    mkState (Math_min (rpm t + 60) 5500)
            (Math_min (speed t + 0.8) 140)
            (Math_min (throttle t + 2) 85)
            (Math_min (load t + 1.5) 95)
            (coolant t)
            (battery t)
            (Math_min (fuelEff t + 0.5) 25)
  else
    mkState (Math_max (rpm t - 80) 800)
            (Math_max (speed t - 0.4) 0)
            (Math_max (throttle t - 3) 0)
            (Math_max (load t - 2) 15)
            (coolant t)
            (battery t)
            (Math_max (fuelEff t - 0.2) 4.5).

Definition coolant_target (ld tc : float) : float :=
  if gtb ld 70 then tc + 0.02 else Math_max (tc - 0.01) 88.

Definition tick (sw : MockOBDSimulator * World) : MockOBDSimulator * World :=
  let (sim, w) := sw in
  let '(acc, c, w1) := flip_step sim w in
  let t1 := push_targets acc (target sim) in
  let (r, w2) := Math_random w1 in
  let t2 := mkState (rpm t1 + (r - 0.5) * 30)
                    (speed t1) (throttle t1) (load t1)
                    (coolant_target (load (state sim)) (coolant t1))
                    (battery t1) (fuelEff t1) in
  let s := state sim in
  let (sn, w3) := sin_clock w2 in
  let s' := mkState (lerp (rpm s) (rpm t2) 0.08)
                    (lerp (speed s) (speed t2) 0.04)
                    (lerp (throttle s) (throttle t2) 0.1)
                    (lerp (load s) (load t2) 0.08)
                    (lerp (coolant s) (coolant t2) 0.05)
                    (13.5 + sn * 0.2)
                    (lerp (fuelEff s) (fuelEff t2) 0.05) in
  (mkSim s' (updateHistory s' (history sim)) t2 acc c, w3).

Fixpoint ticks (n : nat) (sw : MockOBDSimulator * World)
  : MockOBDSimulator * World :=
  match n with
  | O => sw
  | S k => tick (ticks k sw)
  end.

Definition run (n : nat) : MockOBDSimulator * World :=
  ticks n (new_simulator, world0).

End Simulator.

Definition reduce1 (f : float -> float -> float) (arr : list float)
  : option float :=
  match arr with
  | [] => None
  | x :: xs => Some (fold_left f xs x)
  end.

(** [arr.length], as a Number. *)
Definition length_of (arr : list float) : float :=
  of_Z (Z.of_nat (length arr)).

Definition calculateVariance (arr : list float) : option float :=
  match reduce1 PrimFloat.add arr with
  | None => None
  | Some total =>
      let mean := total / length_of arr in
      Some (fold_left (fun a b => a + Math_pow2 (b - mean)) arr 0
            / length_of arr)
  end.

Fixpoint aggression_loop (prev : float) (rest : list float)
    (sumDelta : float) : float :=
  match rest with
  | [] => sumDelta
  | x :: rest' =>
      aggression_loop x rest'
        (if gtb x prev then sumDelta + (x - prev) else sumDelta)
  end.

Definition calculateAggression (arr : list float) : float :=
  let sumDelta := match arr with
                  | [] => 0
                  | x :: rest => aggression_loop x rest 0
                  end in
  Math_min 100 (sumDelta * 2).


Record Scores : Type := mkScores {
  hygiene : float;
  thermal : float;
  engine : float;
  electrical : float
}.

Record Rul : Type := mkRul {
  val : float;
  prob : string
}.

(** [feat]; [rpmVol] is kept as the number, before [toFixed(1)] prints it. *)
Record Feat : Type := mkFeat {
  feat_throttle : float;
  feat_rpmVol : float;
  feat_eff : float
}.

Record Driver : Type := mkDriver {
  type : string;
  conf : float;
  feat : Feat;
  insight : string
}.

Record InferenceResult : Type := mkResult {
  scores : Scores;
  rul : Rul;
  anomaly : bool;
  driver : Driver
}.

Record MLInferenceEngine : Type := mkEngine {
  rulKms : float
}.

Definition new_engine : MLInferenceEngine := mkEngine 15000.

(** Lines 102-118: the class, the confidence and the insight. *)
Definition classify (throttleAggression spd rpmVol jitter : float)
  : string * float * string :=
  if gtb throttleAggression 60 then
    ("AGGRESSIVE", 92,
     "High throttle aggression detected. Impact on fuel +12%.")%string
  else if (throttleAggression <? 20) && gtb spd 30 then
    ("ECO - OPTIMAL", 96,
     "Smooth acceleration profile. Fuel efficiency maximized.")%string
  else if gtb rpmVol 8 then
    ("ERRATIC", 78,
     "Unstable RPM detected. Check transmission linkage.")%string
  else
    ("NORMAL", 85 + jitter * 10, "Behavior within normal baseline.")%string.

(** Lines 80-81. *)
Definition thermalHealth (data : VehicleState) : float :=
  if gtb (coolant data) 100 then 100 - (coolant data - 100) * 5 else 100.

(** Lines 82-84. *)
Definition engineHealth (data : VehicleState) : float :=
  let e := if gtb (rpm data) 4500 then 100 - 5 else 100 in
  if gtb (load data) 90 then e - 2 else e.

(** Lines 85-86. *)
Definition elecHealth (data : VehicleState) : float :=
  if battery data <? 12.8 then 100 - 10 else 100.

Section Inference.

Variable random : nat -> float.
Variable Math_sqrt : float -> float.

(** [runInference()]; [None] is the TypeError of [calculateVariance]. *)
Definition runInference (e : MLInferenceEngine) (sim : MockOBDSimulator)
    (w : World) : option (InferenceResult * MLInferenceEngine * World) :=
  let data := state sim in
  let history := history sim in
  let hygieneScore :=
    Math_round ((thermalHealth data * 0.4) + (engineHealth data * 0.4)
                + (elecHealth data * 0.2)) in
  let recentRpm := slice_last 20 (h_rpm history) in
  match calculateVariance recentRpm with
  | None => None
  | Some rpmVariance =>
      let isAnomaly := gtb rpmVariance 5000 in
      let degradationFactor := (load data / 100) * 2 in
      let rulKms' := rulKms e - degradationFactor * 0.1 in
      let throttleAggression := calculateAggression (h_throttle history) in
      let rpmVol := Math_sqrt rpmVariance / 100 in
      let (r, w1) := Math_random random w in
      let '(driverClass, confidence, insight) :=
        classify throttleAggression (speed data) rpmVol r in
      Some (mkResult
              (mkScores hygieneScore (thermalHealth data)
                        (engineHealth data) (elecHealth data))
              (mkRul (Math_floor rulKms')
                     (if gtb (coolant data) 102 then "High" else "Low"))
              isAnomaly
              (mkDriver driverClass (Math_round confidence)
                        (mkFeat (Math_round throttleAggression) rpmVol
                                (Math_round
                                   (100 - (throttleAggression * 0.6))))
                        insight),
            mkEngine rulKms', w1)
  end.

End Inference.

(** A simulator as constructed, but for its state and two of its history
    channels. *)
Definition simulator_with (st : VehicleState) (rpms throttles : list float)
  : MockOBDSimulator :=
  mkSim st
        (mkHistory rpms
                   (h_speed (history new_simulator))
                   (h_load (history new_simulator))
                   (h_coolant (history new_simulator))
                   throttles
                   (h_fuelEff (history new_simulator)))
        (target new_simulator)
        false
        0.

(** The binary64 sum of the samples, in order. *)
Definition sum (l : list float) : float :=
  match l with
  | [] => 0
  | x :: xs => fold_left PrimFloat.add xs x
  end.

Definition mean (l : list float) : float := sum l / length_of l.

(** Population variance, in the words of the specification, every step
    rounded: the squared deviations from the mean, added up from 0 in
    order and divided by N. *)
Definition population_variance (l : list float) : float :=
  fold_left PrimFloat.add
            (map (fun x => (x - mean l) * (x - mean l)) l) 0
  / length_of l.




End Binary64.


(** ** Checks run over finite ranges *)



(** ** Predicates of the specification *)


(** A simulator as constructed, but for its state and two of its history
    channels: the inputs of the scenarios of the specification. *)
Definition simulator_with (st : VehicleState) (rpms throttles : list Q)
  : MockOBDSimulator :=
  mkSim st
        (mkHistory rpms
                   (h_speed (history new_simulator))
                   (h_load (history new_simulator))
                   (h_coolant (history new_simulator))
                   throttles
                   (h_fuelEff (history new_simulator)))
        (target new_simulator)
        false
        0.

Definition Qsum (l : list Q) : Q := fold_right Qplus 0 l.

Definition mean (l : list Q) : Q := Qsum l / Qlength l.

(** Population variance, in the words of the specification and in exact
    arithmetic: the mean of the squared deviations from the mean, dividing
    by N. *)
Definition population_variance (l : list Q) : Q :=
  Qsum (map (fun x => (x - mean l) * (x - mean l)) l) / Qlength l.

(** All six channels hold [n] samples. *)
Definition history_full (n : nat) (h : History) : Prop :=
  length (h_rpm h) = n /\ length (h_speed h) = n /\ length (h_load h) = n /\
  length (h_coolant h) = n /\ length (h_throttle h) = n /\
  length (h_fuelEff h) = n.

(** The target ranges as the specification documents them. *)
Definition targets_documented (t : VehicleState) : Prop :=
  0 <= throttle t <= 85 /\ 800 <= rpm t <= 5500 /\ 0 <= speed t <= 140 /\
  15 <= load t <= 95 /\ 4.5 <= fuelEff t <= 25.

(** The ranges the code keeps: the rpm clamp is applied before the jitter
    of line 45, which moves the rpm target by up to 15 either way. *)
Definition targets_kept (t : VehicleState) : Prop :=
  0 <= throttle t <= 85 /\ 785 <= rpm t <= 5515 /\ 0 <= speed t <= 140 /\
  15 <= load t <= 95 /\ 4.5 <= fuelEff t <= 25.

(** What [Math.random()] promises. *)
Definition unit_draws (random : nat -> Q) : Prop :=
  forall k : nat, 0 <= random k < 1.






(** ** Channels *)

(** The six channels [updateHistory] records. *)
Inductive Channel : Type := Rpm | Speed | Load | Coolant | Throttle | FuelEff.

(** [state[c]]. *)
Definition reading (c : Channel) (st : VehicleState) : Q :=
  match c with
  | Rpm => rpm st
  | Speed => speed st
  | Load => load st
  | Coolant => coolant st
  | Throttle => throttle st
  | FuelEff => fuelEff st
  end.

(** [history[c]]. *)
Definition samples (c : Channel) (h : History) : list Q :=
  match c with
  | Rpm => h_rpm h
  | Speed => h_speed h
  | Load => h_load h
  | Coolant => h_coolant h
  | Throttle => h_throttle h
  | FuelEff => h_fuelEff h
  end.

(** [getData()]: a copy of the state. *)
Definition getData (sim : MockOBDSimulator) : VehicleState := state sim.

(** [getHistory()]: the history object itself. *)
Definition getHistory (sim : MockOBDSimulator) : History := history sim.

(** What [Math.sin] promises. *)
Definition unit_sines (sinNow : nat -> Q) : Prop :=
  forall k : nat, -1 <= sinNow k <= 1.

(** ** Charts *)

Module DetailedChart.

(** A chart whose canvas was found: its samples, oldest first, and the
    size of the canvas.  A chart whose canvas is missing is [None]: the
    constructor returns before [this.ctx] and [this.data] are set, and
    [update] returns at once. *)
Record t : Type := mk {
  data : list Q;
  width : Q;
  height : Q
}.

(** [constructor], for the size of the canvas when there is one. *)
Definition new (canvas : option (Q * Q)) : option t :=
  match canvas with
  | None => None
  | Some (w, h) => Some (mk (Array_fill 60 0) w h)
  end.

(** [update(newValue)], without the drawing. *)
Definition update (chart : option t) (newValue : Q) : option t :=
  match chart with
  | None => None
  | Some c => Some (mk (push_shift (data c) newValue) (width c) (height c))
  end.

(** [Math.max(...this.data, 10)] and [minVal] of [draw]. *)
Definition maxVal (c : t) : Q := fold_right Math_max 10 (data c).
Definition minVal : Q := 0.

(** [normalized] of [draw], for a sample [v]. *)
Definition normalized (c : t) (v : Q) : Q := (v - minVal) / (maxVal c - minVal).

(** [this.data[this.data.length - 1]], the value of the tag. *)
Definition current (c : t) : option Q :=
  nth_error (data c) (length (data c) - 1).

End DetailedChart.

Section Page.

Variable random : nat -> Q.
Variable sinNow : nat -> Q.

(** The value of channel [c] that [getData()] hands out after [k] ticks. *)
Definition channel_after (wk : nat -> World) (c : Channel) (k : nat) : Q :=
  reading c (getData (sim_after random sinNow wk k)).

(** A chart fed by [updateFast] after [n] runs of the 100 ms callback
    [sim.tick(); ui.updateFast()]: each run pushes the channel of the
    state the tick has just computed.  The page feeds two charts this
    way, with the load and with the fuel consumption. *)
Fixpoint fast_chart (c : Channel) (canvas : option (Q * Q))
    (wk : nat -> World) (n : nat) : option DetailedChart.t :=
  match n with
  | O => DetailedChart.new canvas
  | S k =>
      DetailedChart.update (fast_chart c canvas wk k)
        (channel_after wk c (S k))
  end.

End Page.

(** ** Cards of [UIController], on the Numbers of the program *)

(** The stroke of the temperature gauge in [updateGauges]. *)
Definition tempStroke (d : Binary64.VehicleState) : string :=
  if Binary64.gtb (Binary64.coolant d) 100 then "#ff2a2a"
  else if Binary64.gtb (Binary64.coolant d) 90 then "#ffc800"
  else "#00e5ff".

(** [s.includes(sub)]. *)
Definition includes (s sub : string) : bool :=
  match index 0 sub s with
  | Some _ => true
  | None => false
  end.

(** The health card of [updateAI]: colour, risk and summary. *)
Definition health_card (hygieneScore : float) : string * string * string :=
  let color := "#00ff41"%string in
  let risk := "Low"%string in
  let '(color, risk) :=
    if (hygieneScore <? 80)%float then ("#ffc800", "Medium")%string
    else (color, risk) in
  let '(color, risk) :=
    if (hygieneScore <? 60)%float then ("#ff2a2a", "High")%string
    else (color, risk) in
  let summary :=
    if String.eqb risk "Low" then
      "All systems operating within optimal parameters."%string
    else if String.eqb risk "Medium" then
      "Minor thermal irregularity detected. Monitoring."%string
    else "Critical system stress detected. Maintainence required."%string in
  (color, risk, summary).

(** The driver card of [updateAI]: fuel impact and colour. *)
Definition driver_card (driverType : string) : string * string :=
  if includes driverType "AGGRESSIVE" then
    ("+12% Consumption", "#ff2a2a")%string
  else if includes driverType "ECO" then
    ("-5% Consumption", "#00ff41")%string
  else ("Neutral", "#fff")%string.

(** An entry of the anomaly list. *)
Record Item : Type := mkItem {
  icon : string;
  class : string;
  text : string
}.

(** The anomaly monitor of [updateAI]: status text, status class and the
    items, in the order they are pushed. *)
Definition anomaly_monitor (isAnomaly : bool) (d : Binary64.VehicleState)
  : string * string * list Item :=
  let status := "SYSTEM NORMAL"%string in
  let statusClass := EmptyString in
  let items : list Item := [] in
  let '(status, statusClass, items) :=
    if isAnomaly then
      ("ANOMALY DETECTED"%string, "critical"%string,
       items ++ [mkItem "warning" "issue" "RPM Pattern Instability"])
    else
      (status, statusClass,
       items ++ [mkItem "check_circle" "check" "RPM Variance Nominal"]) in
  let '(status, statusClass, items) :=
    if Binary64.gtb (Binary64.coolant d) 100 then
      ("WARNING"%string,
       (if negb (String.eqb statusClass "critical") then "warning"%string
        else statusClass),
       items ++ [mkItem "warning" "issue" "Thermal Threshold Exceeded"])
    else
      (status, statusClass,
       items ++ [mkItem "check_circle" "check" "Thermal Gradient Stable"]) in
  let items :=
    if (Binary64.battery d <? 12.5)%float then
      items ++ [mkItem "bolt" "issue" "Voltage Drop Detected"]
    else items in
  (status, statusClass, items).

(** No throttle sample exceeds the one before it. *)
Fixpoint falling (l : list float) : Prop :=
  match l with
  | x :: (y :: _) as rest => Binary64.gtb y x = false /\ falling rest
  | _ => True
  end.

(** ** Comparisons and clamps *)

Lemma Qgtb_true (a b : Q) : Qgtb a b = true <-> b < a.
Proof.
  unfold Qgtb. rewrite negb_true_iff, <- not_true_iff_false, Qle_bool_iff.
  split; intro H; [apply Qnot_le_lt | apply Qlt_not_le]; exact H.
Qed.

Lemma Qgtb_false (a b : Q) : Qgtb a b = false <-> a <= b.
Proof.
  unfold Qgtb. rewrite negb_false_iff. apply Qle_bool_iff.
Qed.


Lemma Qltb_false (a b : Q) : Qltb a b = false <-> b <= a.
Proof. unfold Qltb. apply (Qgtb_false b a). Qed.


(** Every [Math.min] and [Math.max] of the goal replaced by its value. *)
Ltac qclamp :=
  unfold Math_min, Math_max in *;
  repeat match goal with
  | |- context [Qmin ?a ?b] =>
      let H := fresh "H" in
      let m := fresh "m" in
      pose proof (Q.min_spec a b) as H;
      set (m := Qmin a b) in *; clearbody m;
      destruct H as [[? ?] | [? ?]]
  | |- context [Qmax ?a ?b] =>
      let H := fresh "H" in
      let m := fresh "m" in
      pose proof (Q.max_spec a b) as H;
      set (m := Qmax a b) in *; clearbody m;
      destruct H as [[? ?] | [? ?]]
  end.


(** ** History *)

Lemma push_shift_length (arr : list Q) (v : Q) :
  length (push_shift arr v) = length arr.
Proof.
  unfold push_shift. destruct arr as [| x xs]; simpl; [reflexivity |].
  rewrite length_app. simpl. lia.
Qed.

Lemma push_shift_cons (x : Q) (xs : list Q) (v : Q) :
  push_shift (x :: xs) v = xs ++ [v].
Proof. reflexivity. Qed.

Lemma Array_fill_length (n : nat) (v : Q) : length (Array_fill n v) = n.
Proof. apply repeat_length. Qed.

Lemma updateHistory_full (n : nat) (st : VehicleState) (h : History) :
  history_full n h -> history_full n (updateHistory st h).
Proof.
  unfold history_full, updateHistory. simpl.
  rewrite !push_shift_length. tauto.
Qed.

(** ** One tick, field by field *)

Section TickFacts.

Variable random : nat -> Q.
Variable sinNow : nat -> Q.

(** The mode and the counter a tick leaves, and the world it draws the
    jitter from. *)
Lemma tick_unfold (sim : MockOBDSimulator) (w : World) :
  let '(acc, c, w1) := flip_step random sim w in
  let t1 := push_targets acc (target sim) in
  let r := random (rngPos w1) in
  let sim' := fst (tick random sinNow (sim, w)) in
  isAccelerating sim' = acc /\ accelCounter sim' = c /\
  rpm (target sim') = rpm t1 + (r - 0.5) * 30 /\
  speed (target sim') = speed t1 /\
  throttle (target sim') = throttle t1 /\
  load (target sim') = load t1 /\
  fuelEff (target sim') = fuelEff t1 /\
  coolant (target sim') =
    coolant_target (load (state sim)) (coolant (target sim)) /\
  history sim' = updateHistory (state sim') (history sim) /\
  throttle (state sim') =
    lerp (throttle (state sim)) (throttle (target sim')) 0.1 /\
  load (state sim') = lerp (load (state sim)) (load (target sim')) 0.08 /\
  coolant (state sim') =
    lerp (coolant (state sim)) (coolant (target sim')) 0.05.
Proof.
  unfold tick.
  destruct (flip_step random sim w) as [[acc c] w1].
  cbn. destruct acc; cbn; repeat split; reflexivity.
Qed.

End TickFacts.

(** ** Target ranges *)

Section Targets.

Variable random : nat -> Q.
Variable sinNow : nat -> Q.
Hypothesis random_unit : unit_draws random.

Lemma tick_targets_kept (sim : MockOBDSimulator) (w : World) :
  targets_kept (target sim) ->
  targets_kept (target (fst (tick random sinNow (sim, w)))).
Proof.
  intros (Hth & Hrpm & Hsp & Hld & Hfe).
  pose proof (tick_unfold random sinNow sim w) as T.
  destruct (flip_step random sim w) as [[acc c] w1].
  cbv zeta in T.
  destruct T as (_ & _ & Er & Es & Et & El & Ef & _).
  pose proof (random_unit (rngPos w1)) as Hr.
  unfold targets_kept. rewrite Er, Es, Et, El, Ef.
  destruct acc; cbn [push_targets rpm speed throttle load fuelEff];
    qclamp; repeat split; lra.
Qed.

Lemma new_simulator_targets_kept : targets_kept (target new_simulator).
Proof. unfold targets_kept; cbn; repeat split; lra. Qed.

Lemma sim_after_targets_kept (wk : nat -> World) (n : nat) :
  targets_kept (target (sim_after random sinNow wk n)).
Proof.
  induction n as [| n IH]; cbn [sim_after].
  - apply new_simulator_targets_kept.
  - apply tick_targets_kept, IH.
Qed.

End Targets.


(** C1 (as stated, refuted).  With every draw equal to 0 the third tick of
    a fresh process leaves the rpm target at 785, below the documented
    floor of 800: the clamp of line 40 gives 800 and the jitter of line 45
    then subtracts 15. *)
Lemma C1_rpm_target_below_floor :
  unit_draws (fun _ => 0) /\
  rpm (target (fst (run (fun _ => 0) (fun _ => 0) 3))) == 785 /\
  ~ targets_documented (target (fst (run (fun _ => 0) (fun _ => 0) 3))).
Proof.
  split; [intro k; lra |].
  split; [vm_compute; reflexivity |].
  intros (_ & [Hlo _] & _). vm_compute in Hlo. apply Hlo. reflexivity.
Qed.

(** C1 (amended).  After any number of ticks of a fresh process, for any
    draws in [0,1) and whatever else drew in between, the throttle target
    is in [0,85], the speed target in [0,140], the load target in [15,95],
    the fuel-consumption target in [4.5,25], and the rpm target in
    [785,5515]: its clamp range [800,5500] widened by the jitter. *)
Theorem C1_targets_stay_in_range
    (random sinNow : nat -> Q) (wk : nat -> World) (n : nat) :
  unit_draws random ->
  targets_kept (target (sim_after random sinNow wk n)).
Proof.
  intro Hr. apply sim_after_targets_kept. exact Hr.
Qed.

Lemma C1_targets_stay_in_range_witness :
  unit_draws (fun _ => 0) /\
  targets_kept
    (target (sim_after (fun _ => 0) (fun _ => 0)
                       (fun k => snd (run (fun _ => 0) (fun _ => 0) k)) 3)).
Proof.
  assert (H : unit_draws (fun _ => 0)) by (intro k; lra).
  split; [exact H |].
  apply (C1_targets_stay_in_range (fun _ => 0) (fun _ => 0) _ 3 H).
Defined.

(** ** History length *)

Lemma new_simulator_history_full :
  history_full HISTORY_SIZE (history new_simulator).
Proof.
  unfold history_full; cbn [new_simulator history h_rpm h_speed h_load
    h_coolant h_throttle h_fuelEff].
  rewrite !Array_fill_length. tauto.
Qed.

Lemma sim_after_history_full
    (random sinNow : nat -> Q) (wk : nat -> World) (n : nat) :
  history_full HISTORY_SIZE (history (sim_after random sinNow wk n)).
Proof.
  induction n as [| n IH]; cbn [sim_after].
  - apply new_simulator_history_full.
  - pose proof (tick_unfold random sinNow
                  (sim_after random sinNow wk n) (wk n)) as T.
    destruct (flip_step random _ _) as [[acc c] w1]. cbv zeta in T.
    destruct T as (_ & _ & _ & _ & _ & _ & _ & _ & Eh & _).
    rewrite Eh. apply updateHistory_full, IH.
Qed.

Lemma push_shift_evicts_oldest (arr : list Q) (v : Q) :
  length arr = HISTORY_SIZE -> push_shift arr v = tl arr ++ [v].
Proof.
  destruct arr as [| x xs]; [discriminate | reflexivity].
Qed.

(** C2.  Every channel of the history holds exactly 100 samples right
    after construction and after any number of ticks, and a tick gives
    each channel its old samples without the oldest one, followed by the
    new value of that channel of the state. *)
Theorem C2_history_length_100
    (random sinNow : nat -> Q) (wk : nat -> World) (n : nat) :
  let sim := sim_after random sinNow wk n in
  let sim' := sim_after random sinNow wk (S n) in
  history_full 100 (history new_simulator) /\
  history_full 100 (history sim) /\
  h_rpm (history sim') = tl (h_rpm (history sim)) ++ [rpm (state sim')] /\
  h_speed (history sim') = tl (h_speed (history sim)) ++ [speed (state sim')] /\
  h_load (history sim') = tl (h_load (history sim)) ++ [load (state sim')] /\
  h_coolant (history sim')
    = tl (h_coolant (history sim)) ++ [coolant (state sim')] /\
  h_throttle (history sim')
    = tl (h_throttle (history sim)) ++ [throttle (state sim')] /\
  h_fuelEff (history sim')
    = tl (h_fuelEff (history sim)) ++ [fuelEff (state sim')].
Proof.
  intros sim sim'.
  split; [apply new_simulator_history_full |].
  pose proof (sim_after_history_full random sinNow wk n) as F.
  fold sim in F. split; [exact F |].
  destruct F as (F1 & F2 & F3 & F4 & F5 & F6).
  pose proof (tick_unfold random sinNow sim (wk n)) as T.
  destruct (flip_step random sim (wk n)) as [[acc c] w1]. cbv zeta in T.
  destruct T as (_ & _ & _ & _ & _ & _ & _ & _ & Eh & _).
  change (fst (tick random sinNow (sim, wk n))) with sim' in Eh.
  rewrite Eh. unfold updateHistory.
  cbn [h_rpm h_speed h_load h_coolant h_throttle h_fuelEff].
  rewrite !push_shift_evicts_oldest by assumption.
  repeat split; reflexivity.
Qed.

(** ** Drive mode *)

Section DriveMode.

Variable random : nat -> Q.
Variable sinNow : nat -> Q.

(** The three outcomes of lines 27-31. *)
Lemma flip_step_cases (sim : MockOBDSimulator) (w : World) :
  let c := S (accelCounter sim) in
  let '(acc, c', _) := flip_step random sim w in
  ((50 < c)%nat /\ 0.95 < random (rngPos w) /\
     acc = negb (isAccelerating sim) /\ c' = 0%nat) \/
  (~ ((50 < c)%nat /\ 0.95 < random (rngPos w)) /\
     acc = isAccelerating sim /\ c' = c).
Proof.
  unfold flip_step. cbv zeta.
  destruct (50 <? S (accelCounter sim))%nat eqn:E50.
  - apply Nat.ltb_lt in E50. cbn [Math_random].
    destruct (Qgtb (random (rngPos w)) 0.95) eqn:Er.
    + apply Qgtb_true in Er. left. auto.
    + apply Qgtb_false in Er. right. repeat split; trivial.
      intros [_ H]. lra.
  - apply Nat.ltb_ge in E50. right. repeat split; trivial.
    intros [H _]. lia.
Qed.

(** One tick of [sim_after]: the mode and the counter it leaves. *)
Lemma sim_after_mode (wk : nat -> World) (k : nat) :
  let sim := sim_after random sinNow wk k in
  let sim' := sim_after random sinNow wk (S k) in
  let c := S (accelCounter sim) in
  ((50 < c)%nat /\ 0.95 < random (rngPos (wk k)) /\
     isAccelerating sim' = negb (isAccelerating sim) /\
     accelCounter sim' = 0%nat) \/
  (~ ((50 < c)%nat /\ 0.95 < random (rngPos (wk k))) /\
     isAccelerating sim' = isAccelerating sim /\ accelCounter sim' = c).
Proof.
  intros sim sim' c.
  pose proof (flip_step_cases sim (wk k)) as F.
  pose proof (tick_unfold random sinNow sim (wk k)) as T.
  destruct (flip_step random sim (wk k)) as [[acc c'] w1].
  cbv zeta in F, T. destruct T as (Ea & Ec & _).
  change (fst (tick random sinNow (sim, wk k))) with sim' in Ea, Ec.
  rewrite Ea, Ec. exact F.
Qed.

Lemma flips_at_iff (wk : nat -> World) (k : nat) :
  flips_at random sinNow wk k = true <->
  (50 < S (accelCounter (sim_after random sinNow wk k)))%nat /\
  0.95 < random (rngPos (wk k)).
Proof.
  unfold flips_at.
  destruct (sim_after_mode wk k) as [(H1 & H2 & Ea & _) | (Hn & Ea & _)];
    rewrite Ea.
  - split; [intros _; split; assumption | intros _].
    clear Ea.
    destruct (isAccelerating (sim_after random sinNow wk k)); reflexivity.
  - rewrite Bool.eqb_reflx. cbn. split; [discriminate | intro H; tauto].
Qed.

Lemma flips_at_resets (wk : nat -> World) (k : nat) :
  flips_at random sinNow wk k = true ->
  accelCounter (sim_after random sinNow wk (S k)) = 0%nat.
Proof.
  intro H. apply flips_at_iff in H.
  destruct (sim_after_mode wk k) as [(_ & _ & _ & Ec) | (Hn & _)];
    [exact Ec | tauto].
Qed.

(** The counter never runs ahead of the ticks made since a flip. *)
Lemma counter_since_flip (wk : nat -> World) (i d : nat) :
  flips_at random sinNow wk i = true ->
  (accelCounter (sim_after random sinNow wk (S i + d)) <= d)%nat.
Proof.
  intro H. induction d as [| d IH].
  - rewrite Nat.add_0_r, (flips_at_resets wk i H). lia.
  - replace (S i + S d)%nat with (S (S i + d)) by lia.
    destruct (sim_after_mode wk (S i + d)) as [(_ & _ & _ & Ec) | (_ & _ & Ec)];
      rewrite Ec; lia.
Qed.

Lemma flips_apart (wk : nat -> World) (i j : nat) :
  (i < j)%nat ->
  flips_at random sinNow wk i = true ->
  flips_at random sinNow wk j = true ->
  (50 <= j - i - 1)%nat.
Proof.
  intros Hij Hi Hj.
  apply flips_at_iff in Hj. destruct Hj as [Hc _].
  pose proof (counter_since_flip wk i (j - i - 1) Hi) as B.
  replace (S i + (j - i - 1))%nat with j in B by lia. lia.
Qed.

End DriveMode.

(** C7.  The mode changes at a tick exactly when the counter, once
    incremented, exceeds 50 and the draw exceeds 0.95; that tick leaves
    the counter at 0; so between two ticks that change the mode there are
    at least 50 ticks that do not, for any draws. *)
Theorem C7_mode_flips_debounced
    (random sinNow : nat -> Q) (wk : nat -> World) (i j : nat) :
  (flips_at random sinNow wk i = true <->
     (50 < S (accelCounter (sim_after random sinNow wk i)))%nat /\
     0.95 < random (rngPos (wk i))) /\
  (flips_at random sinNow wk i = true ->
     accelCounter (sim_after random sinNow wk (S i)) = 0%nat) /\
  ((i < j)%nat ->
   flips_at random sinNow wk i = true ->
   flips_at random sinNow wk j = true ->
   (50 <= j - i - 1)%nat).
Proof.
  split; [apply flips_at_iff |].
  split; [apply flips_at_resets | apply flips_apart].
Qed.

Lemma C7_mode_flips_debounced_witness :
  let random := fun _ : nat => 0.96 in
  let wk := fun k : nat => mkWorld (2 * k) k in
  flips_at random (fun _ => 0) wk 50 = true /\
  flips_at random (fun _ => 0) wk 101 = true /\
  accelCounter (sim_after random (fun _ => 0) wk 51) = 0%nat /\
  (50 <= 101 - 50 - 1)%nat.
Proof.
  intros random wk.
  assert (H50 : flips_at random (fun _ => 0) wk 50 = true)
    by (vm_compute; reflexivity).
  assert (H101 : flips_at random (fun _ => 0) wk 101 = true)
    by (vm_compute; reflexivity).
  destruct (C7_mode_flips_debounced random (fun _ => 0) wk 50 101)
    as (_ & Hreset & Hapart).
  split; [exact H50 |]. split; [exact H101 |].
  split; [exact (Hreset H50) |].
  apply Hapart; [lia | exact H50 | exact H101].
Defined.

(** ** First tick and coolant *)

(** C9.  The fresh simulator has state rpm 1000, speed 0, throttle 0,
    load 20, coolant 90, fuelEff 8.5 and is decelerating; its first tick
    keeps it decelerating, sets the throttle target to max(0 - 3, 0) = 0
    and the throttle state to lerp(0, 0, 0.1) = 0, where
    lerp(s, t, a) = (1 - a) s + a t. *)
Theorem C9_first_tick_throttle
    (random sinNow : nat -> Q) (w : World) :
  let sim' := fst (tick random sinNow (new_simulator, w)) in
  state new_simulator = mkState 1000 0 0 20 90 13.8 8.5 /\
  isAccelerating new_simulator = false /\
  isAccelerating sim' = false /\
  throttle (target sim') = Math_max (0 - 3) 0 /\
  throttle (target sim') == 0 /\
  throttle (state sim') = lerp 0 (throttle (target sim')) 0.1 /\
  throttle (state sim') == throttle (state new_simulator) /\
  throttle (state sim') == 0 /\
  (forall s t a : Q, lerp s t a == (1 - a) * s + a * t).
Proof.
  intro sim'.
  pose proof (tick_unfold random sinNow new_simulator w) as T.
  change (flip_step random new_simulator w) with (false, 1%nat, w) in T.
  cbv zeta in T. fold sim' in T.
  destruct T as (Ea & _ & _ & _ & Et & _ & _ & _ & _ & Es & _).
  assert (Et0 : throttle (target sim') == 0) by (rewrite Et; reflexivity).
  assert (Es0 : throttle (state sim') == 0).
  { rewrite Es. unfold lerp. rewrite Et0. cbn. lra. }
  repeat split; try assumption; try reflexivity.
Qed.

Section Coolant.

Variable random : nat -> Q.
Variable sinNow : nat -> Q.





End Coolant.

(** ** Variance *)

Lemma Qlength_cons (x : Q) (xs : list Q) : Qlength (x :: xs) == Qlength xs + 1.
Proof.
  unfold Qlength. cbn [length]. rewrite Nat2Z.inj_succ.
  unfold Z.succ. rewrite inject_Z_plus. reflexivity.
Qed.

Lemma Qlength_nonneg (l : list Q) : 0 <= Qlength l.
Proof.
  unfold Qlength, Qle. cbn. lia.
Qed.

Lemma Qlength_pos (l : list Q) : l <> [] -> 0 < Qlength l.
Proof.
  destruct l as [| x xs]; [congruence | intros _].
  rewrite Qlength_cons. pose proof (Qlength_nonneg xs). lra.
Qed.

Lemma fold_left_Qplus (xs : list Q) (a : Q) :
  fold_left Qplus xs a == a + Qsum xs.
Proof.
  revert a. induction xs as [| x xs IH]; intro a;
    cbn [fold_left Qsum fold_right].
  - lra.
  - rewrite IH. unfold Qsum. lra.
Qed.

Lemma fold_left_sq (m : Q) (xs : list Q) (a : Q) :
  fold_left (fun a b => a + Math_pow2 (b - m)) xs a
  == a + Qsum (map (fun x => (x - m) * (x - m)) xs).
Proof.
  revert a. induction xs as [| x xs IH]; intro a;
    cbn [fold_left Qsum fold_right map].
  - lra.
  - rewrite IH. unfold Math_pow2, Qsum. lra.
Qed.

Lemma Qsum_sq_compat (m m' : Q) (xs : list Q) :
  m == m' ->
  Qsum (map (fun x => (x - m) * (x - m)) xs)
  == Qsum (map (fun x => (x - m') * (x - m')) xs).
Proof.
  intro E. induction xs as [| x xs IH]; cbn [Qsum fold_right map];
    [reflexivity |].
  unfold Qsum in IH. rewrite IH, E. reflexivity.
Qed.

(** [calculateVariance] returns the population variance of a non-empty
    array. *)
Lemma calculateVariance_population (arr : list Q) :
  arr <> [] ->
  exists v, calculateVariance arr = Some v /\ v == population_variance arr.
Proof.
  destruct arr as [| x xs]; [congruence | intros _].
  unfold calculateVariance. cbn [reduce1].
  eexists. split; [reflexivity |].
  unfold population_variance.
  rewrite fold_left_sq.
  assert (Em : fold_left Qplus xs x / Qlength (x :: xs) == mean (x :: xs)).
  { unfold mean. rewrite fold_left_Qplus. reflexivity. }
  rewrite (Qsum_sq_compat _ _ (x :: xs) Em). rewrite Qplus_0_l. reflexivity.
Qed.

Lemma calculateVariance_empty : calculateVariance [] = None.
Proof. reflexivity. Qed.

(** ** The slice of recent samples *)

Lemma slice_last_length (n : nat) (arr : list Q) :
  (n <= length arr)%nat -> length (slice_last n arr) = n.
Proof.
  intro H. unfold slice_last. rewrite length_skipn. lia.
Qed.

Lemma slice_last_nonempty (n : nat) (arr : list Q) :
  (0 < n)%nat -> arr <> [] -> slice_last n arr <> [].
Proof.
  intros Hn Hne E. apply (f_equal (@length Q)) in E.
  unfold slice_last in E. rewrite length_skipn in E.
  destruct arr; [congruence | cbn [length] in E; lia].
Qed.

(** ** Inference *)

Section InferenceFacts.

Variable random : nat -> Q.
Variable Math_sqrt : Q -> Q.

(** What [runInference] returns once the variance is there. *)
Lemma runInference_fields (e : MLInferenceEngine) (sim : MockOBDSimulator)
    (w : World) (v : Q) :
  calculateVariance (slice_last 20 (h_rpm (history sim))) = Some v ->
  let data := state sim in
  let ta := calculateAggression (h_throttle (history sim)) in
  let rulKms' := rulKms e - (load data / 100) * 2 * 0.1 in
  exists res,
    runInference random Math_sqrt e sim w
    = Some (res, mkEngine rulKms', mkWorld (S (rngPos w)) (clockPos w)) /\
    thermal (scores res) = thermalHealth data /\
    engine (scores res) = engineHealth data /\
    electrical (scores res) = elecHealth data /\
    hygiene (scores res)
    = Math_round (thermalHealth data * 0.4 + engineHealth data * 0.4
                  + elecHealth data * 0.2) /\
    anomaly res = Qgtb v 5000 /\
    val (rul res) = Math_floor rulKms' /\
    (type (driver res), conf (driver res))
    = (let '(cls, c, _) :=
         classify ta (speed data) (Math_sqrt v / 100) (random (rngPos w)) in
       (cls, Math_round c)).
Proof.
  intros Hv data ta rulKms'.
  unfold runInference. rewrite Hv. cbn [Math_random].
  fold data. fold ta.
  destruct (classify ta (speed data) (Math_sqrt v / 100) (random (rngPos w)))
    as [[cls c] ins].
  eexists. split; [reflexivity |].
  cbn. repeat split; reflexivity.
Qed.

(** [runInference] raises exactly when the rpm history is empty. *)
Lemma runInference_defined (e : MLInferenceEngine) (sim : MockOBDSimulator)
    (w : World) :
  h_rpm (history sim) <> [] ->
  exists v,
    calculateVariance (slice_last 20 (h_rpm (history sim))) = Some v /\
    v == population_variance (slice_last 20 (h_rpm (history sim))).
Proof.
  intro Hne. apply calculateVariance_population.
  apply slice_last_nonempty; [lia | exact Hne].
Qed.

End InferenceFacts.

(** ** Remaining useful life *)

Section Wear.

Variable random : nat -> Q.
Variable Math_sqrt : Q -> Q.






End Wear.



(** ** The variance never sees an empty array *)

(** C8.  After any number of ticks of a fresh process the rpm history
    holds 100 samples, so the array given to [calculateVariance] is the
    20-element slice: it is not empty, its length is not zero, the
    reduction without seed and the variance are defined, and inference
    returns a result.  The error branch is the one of the empty array. *)
Theorem C8_variance_input_nonempty
    (random sinNow : nat -> Q) (Math_sqrt : Q -> Q)
    (wk : nat -> World) (n : nat) (e : MLInferenceEngine) (w : World) :
  let sim := sim_after random sinNow wk n in
  let recentRpm := slice_last 20 (h_rpm (history sim)) in
  length (h_rpm (history sim)) = 100%nat /\
  length recentRpm = 20%nat /\
  recentRpm <> [] /\
  ~ Qlength recentRpm == 0 /\
  reduce1 Qplus recentRpm <> None /\
  calculateVariance recentRpm <> None /\
  (exists res e' w',
     runInference random Math_sqrt e sim w = Some (res, e', w')) /\
  calculateVariance [] = None.
Proof.
  intros sim recentRpm.
  destruct (sim_after_history_full random sinNow wk n) as (F & _).
  fold sim in F. change HISTORY_SIZE with 100%nat in F.
  assert (L : length recentRpm = 20%nat)
    by (apply slice_last_length; rewrite F; lia).
  assert (Hne : recentRpm <> [])
    by (intro E; rewrite E in L; discriminate).
  assert (Hh : h_rpm (history sim) <> [])
    by (intro E; rewrite E in F; discriminate).
  split; [exact F |]. split; [exact L |]. split; [exact Hne |].
  split. { pose proof (Qlength_pos recentRpm Hne). lra. }
  split. { destruct recentRpm; [congruence | discriminate]. }
  destruct (runInference_defined e sim w Hh) as (v & Hv & _).
  fold recentRpm in Hv.
  split; [rewrite Hv; discriminate |].
  split; [| reflexivity].
  destruct (runInference_fields random Math_sqrt e sim w v Hv)
    as (res & Hres & _).
  exists res. do 2 eexists. exact Hres.
Qed.

(** ** State ranges *)



Section States.

Variable random : nat -> Q.
Variable sinNow : nat -> Q.

(** The channels of the state [tick_unfold] leaves out, and the world
    a tick leaves. *)
Lemma tick_state_unfold (sim : MockOBDSimulator) (w : World) :
  let sim' := fst (tick random sinNow (sim, w)) in
  rpm (state sim') = lerp (rpm (state sim)) (rpm (target sim')) 0.08 /\
  speed (state sim') = lerp (speed (state sim)) (speed (target sim')) 0.04 /\
  fuelEff (state sim')
    = lerp (fuelEff (state sim)) (fuelEff (target sim')) 0.05 /\
  battery (state sim') = 13.5 + sinNow (clockPos w) * 0.2 /\
  battery (target sim') = battery (target sim).
Proof.
  unfold tick, flip_step. cbv zeta.
  destruct (50 <? S (accelCounter sim))%nat; cbn [Math_random].
  - destruct (Qgtb (random (rngPos w)) 0.95);
      destruct (isAccelerating sim); cbn; repeat split; reflexivity.
  - destruct (isAccelerating sim); cbn; repeat split; reflexivity.
Qed.

Lemma tick_world (sim : MockOBDSimulator) (w : World) :
  snd (tick random sinNow (sim, w))
  = let '(_, _, w1) := flip_step random sim w in
    mkWorld (S (rngPos w1)) (S (clockPos w1)).
Proof.
  unfold tick. destruct (flip_step random sim w) as [[acc c] w1].
  reflexivity.
Qed.





Hypothesis random_unit : unit_draws random.



End States.

(** ** Coolant has no ceiling *)

Section CoolantRuns.

Variable sinNow : nat -> Q.






















End CoolantRuns.



(** ** The inference in binary64 *)

Lemma slice_last64_length (n : nat) (arr : list float) :
  (n <= length arr)%nat -> length (Binary64.slice_last n arr) = n.
Proof.
  intro H. unfold Binary64.slice_last. rewrite length_skipn. lia.
Qed.


Lemma fold_left_squares64 (m : float) (xs : list float) (a : float) :
  fold_left (fun a b => (a + Binary64.Math_pow2 (b - m))%float) xs a
  = fold_left PrimFloat.add (map (fun x => ((x - m) * (x - m))%float) xs) a.
Proof.
  revert a. induction xs as [| x xs IH]; intro a; [reflexivity |].
  cbn [fold_left map]. apply IH.
Qed.

Lemma calculateVariance64_population (arr : list float) :
  arr <> [] ->
  Binary64.calculateVariance arr = Some (Binary64.population_variance arr).
Proof.
  intro H. destruct arr as [| x xs]; [congruence |].
  unfold Binary64.calculateVariance, Binary64.population_variance,
    Binary64.mean, Binary64.sum, Binary64.reduce1.
  cbv zeta. rewrite fold_left_squares64. reflexivity.
Qed.

Section Inference64.

Variable random : nat -> float.
Variable Math_sqrt : float -> float.

(** Everything a call that returns returns. *)
Lemma runInference64_result (e : Binary64.MLInferenceEngine)
    (sim : Binary64.MockOBDSimulator) (w : World) (v : float) :
  Binary64.calculateVariance
    (Binary64.slice_last 20 (Binary64.h_rpm (Binary64.history sim))) = Some v ->
  let d := Binary64.state sim in
  let ta := Binary64.calculateAggression
              (Binary64.h_throttle (Binary64.history sim)) in
  let vol := (Math_sqrt v / 100)%float in
  let cl := Binary64.classify ta (Binary64.speed d) vol (random (rngPos w)) in
  let rulKms' :=
    (Binary64.rulKms e - Binary64.load d / 100 * 2 * 0.1)%float in
  Binary64.runInference random Math_sqrt e sim w
  = Some (Binary64.mkResult
            (Binary64.mkScores
               (Binary64.Math_round
                  (Binary64.thermalHealth d * 0.4
                   + Binary64.engineHealth d * 0.4
                   + Binary64.elecHealth d * 0.2)%float)
               (Binary64.thermalHealth d) (Binary64.engineHealth d)
               (Binary64.elecHealth d))
            (Binary64.mkRul
               (Binary64.Math_floor rulKms')
               (if Binary64.gtb (Binary64.coolant d) 102
                then "High"%string else "Low"%string))
            (Binary64.gtb v 5000)
            (Binary64.mkDriver
               (fst (fst cl)) (Binary64.Math_round (snd (fst cl)))
               (Binary64.mkFeat (Binary64.Math_round ta) vol
                  (Binary64.Math_round (100 - ta * 0.6)%float))
               (snd cl)),
          Binary64.mkEngine rulKms',
          mkWorld (S (rngPos w)) (clockPos w)).
Proof.
  intro Hv. cbv zeta. unfold Binary64.runInference. rewrite Hv.
  cbn [Binary64.Math_random].
  destruct (Binary64.classify _ _ _ _) as [[cls c] ins]. reflexivity.
Qed.

End Inference64.

(** ** Anomaly *)






(** ** Health scores *)

Lemma history64_defined (sim : Binary64.MockOBDSimulator) :
  Binary64.h_rpm (Binary64.history sim) <> [] ->
  exists v,
    Binary64.calculateVariance
      (Binary64.slice_last 20 (Binary64.h_rpm (Binary64.history sim)))
    = Some v.
Proof.
  intro H. eexists. apply calculateVariance64_population.
  unfold Binary64.slice_last.
  destruct (Binary64.h_rpm (Binary64.history sim)) as [| x xs] eqn:E;
    [congruence |].
  intro N. apply (f_equal (@length float)) in N.
  rewrite length_skipn in N. cbn [length] in N. lia.
Qed.




(** ** Driver classification *)







(** ** The simulator between flips *)

(** X1.  A tick reads the clock exactly once.  It draws one random
    number when the counter, once incremented, is at most 50, and two
    when it exceeds 50, whether or not the mode then flips: the draw of
    the flip test is made only after the counter test has passed. *)
Theorem tick_draw_count
    (random sinNow : nat -> Q) (sim : MockOBDSimulator) (w : World) :
  snd (tick random sinNow (sim, w))
  = mkWorld (rngPos w + (if (50 <? S (accelCounter sim))%nat then 2 else 1))
            (S (clockPos w)).
Proof.
  rewrite tick_world. unfold flip_step. cbv zeta.
  destruct (50 <? S (accelCounter sim))%nat; cbn [Math_random].
  - destruct (Qgtb (random (rngPos w)) 0.95); cbn [rngPos clockPos];
      f_equal; lia.
  - cbn [rngPos clockPos]. f_equal; lia.
Qed.

Section Standstill.

Variable random : nat -> Q.
Variable sinNow : nat -> Q.
Variable wk : nat -> World.

(** Ticks that cannot flip leave the simulator decelerating, counting. *)
Lemma quiet_ticks (n : nat) :
  (forall k, (k < n)%nat ->
             (k < 50)%nat \/ random (rngPos (wk k)) <= 0.95) ->
  isAccelerating (sim_after random sinNow wk n) = false /\
  accelCounter (sim_after random sinNow wk n) = n.
Proof.
  induction n as [| n IH]; intro H.
  - split; reflexivity.
  - destruct IH as [Ha Hc]; [intros k Hk; apply H; lia |].
    destruct (sim_after_mode random sinNow wk n)
      as [(H1 & H2 & _) | (_ & Ea & Ec)].
    + exfalso. rewrite Hc in H1.
      destruct (H n ltac:(lia)) as [L | L]; [lia | lra].
    + rewrite Ea, Ec, Ha, Hc. split; reflexivity.
Qed.

(** A decelerating tick of a vehicle at rest leaves it at rest. *)
Lemma tick_at_rest (sim : MockOBDSimulator) (w : World) :
  isAccelerating (fst (tick random sinNow (sim, w))) = false ->
  speed (target sim) == 0 /\ speed (state sim) == 0 /\
  throttle (target sim) == 0 /\ throttle (state sim) == 0 ->
  let sim' := fst (tick random sinNow (sim, w)) in
  speed (target sim') == 0 /\ speed (state sim') == 0 /\
  throttle (target sim') == 0 /\ throttle (state sim') == 0.
Proof.
  intros Hacc (H1 & H2 & H3 & H4) sim'.
  pose proof (tick_unfold random sinNow sim w) as T.
  destruct (tick_state_unfold random sinNow sim w) as (_ & Ess & _).
  destruct (flip_step random sim w) as [[acc c] w1]. cbv zeta in T.
  fold sim' in T, Ess, Hacc.
  destruct T as (Ea & _ & _ & Es & Et & _ & _ & _ & _ & Ets & _).
  rewrite Hacc in Ea. subst acc.
  cbn [push_targets speed throttle] in Es, Et.
  assert (S0 : speed (target sim') == 0) by (rewrite Es; qclamp; lra).
  assert (T0 : throttle (target sim') == 0) by (rewrite Et; qclamp; lra).
  split; [exact S0 |].
  split; [rewrite Ess; unfold lerp; lra |].
  split; [exact T0 |].
  rewrite Ets; unfold lerp; lra.
Qed.

Lemma at_rest_while_quiet (n : nat) :
  (forall k, (k <= n)%nat ->
             isAccelerating (sim_after random sinNow wk k) = false) ->
  let sim := sim_after random sinNow wk n in
  speed (target sim) == 0 /\ speed (state sim) == 0 /\
  throttle (target sim) == 0 /\ throttle (state sim) == 0.
Proof.
  induction n as [| n IH]; intro H.
  - cbn. repeat split; reflexivity.
  - cbn zeta. cbn [sim_after]. apply tick_at_rest.
    + apply (H (S n)). lia.
    + apply IH. intros k Hk. apply H. lia.
Qed.

Lemma sim_after_battery_target (n : nat) :
  battery (target (sim_after random sinNow wk n)) = 13.8.
Proof.
  induction n as [| n IH]; [reflexivity |].
  cbn [sim_after].
  destruct (tick_state_unfold random sinNow
              (sim_after random sinNow wk n) (wk n)) as (_ & _ & _ & _ & E).
  rewrite E. exact IH.
Qed.

Lemma sim_after_battery (n : nat) :
  battery (state (sim_after random sinNow wk (S n)))
  = 13.5 + sinNow (clockPos (wk n)) * 0.2.
Proof.
  cbn [sim_after].
  destruct (tick_state_unfold random sinNow
              (sim_after random sinNow wk n) (wk n)) as (_ & _ & _ & E & _).
  exact E.
Qed.

Lemma sim_after_battery_range (n : nat) :
  unit_sines sinNow ->
  13.3 <= battery (state (sim_after random sinNow wk n)) <= 13.8.
Proof.
  intro Hs. destruct n as [| n].
  - cbn. split; lra.
  - rewrite sim_after_battery. pose proof (Hs (clockPos (wk n))). split; lra.
Qed.

End Standstill.

(** X2.  For any draws, a fresh process is decelerating through its
    first 50 ticks, its counter equal to the number of ticks made; its
    speed and throttle, targets and states, stay at 0. *)
Theorem first_50_ticks_decelerate
    (random sinNow : nat -> Q) (wk : nat -> World) (n : nat) :
  (n <= 50)%nat ->
  let sim := sim_after random sinNow wk n in
  isAccelerating sim = false /\ accelCounter sim = n /\
  speed (target sim) == 0 /\ speed (state sim) == 0 /\
  throttle (target sim) == 0 /\ throttle (state sim) == 0.
Proof.
  intros Hn sim.
  destruct (quiet_ticks random sinNow wk n) as [Ha Hc];
    [intros k Hk; left; lia |].
  split; [exact Ha |]. split; [exact Hc |].
  apply at_rest_while_quiet. intros k Hk.
  apply quiet_ticks. intros j Hj. left. lia.
Qed.

Lemma first_50_ticks_decelerate_witness :
  let sim := sim_after (fun _ => 0.99) (fun _ => 0)
                       (fun k => mkWorld k k) 50 in
  (50 <= 50)%nat /\ isAccelerating sim = false /\ accelCounter sim = 50%nat /\
  speed (state sim) == 0.
Proof.
  intro sim.
  destruct (first_50_ticks_decelerate (fun _ => 0.99) (fun _ => 0)
              (fun k => mkWorld k k) 50 (le_n 50))
    as (Ha & Hc & _ & Hs & _).
  split; [apply le_n |]. split; [exact Ha |]. split; [exact Hc | exact Hs].
Defined.



(** X4.  The battery target is never written: it is 13.8 for ever.  The
    battery that [getData()] hands out after a tick is
    13.5 + 0.2 sin(now) for the clock reading of that tick, whatever it
    was before.  With the sine in [-1,1] it is in [13.3,13.7], so on the
    data of the simulator the battery is never below the 12.8 of the
    electrical penalty, nor below the 12.5 of the voltage-drop entry. *)
Theorem battery_follows_clock
    (random sinNow : nat -> Q) (wk : nat -> World) (n : nat) :
  let sim := sim_after random sinNow wk n in
  let sim' := sim_after random sinNow wk (S n) in
  battery (target sim) = 13.8 /\
  battery (getData sim') = 13.5 + sinNow (clockPos (wk n)) * 0.2 /\
  (unit_sines sinNow ->
   13.3 <= battery (getData sim') <= 13.7 /\
   Qltb (battery (getData sim)) 12.8 = false /\
   Qltb (battery (getData sim)) 12.5 = false /\
   elecHealth (getData sim) = 100).
Proof.
  intros sim sim'. unfold getData.
  split; [apply sim_after_battery_target |].
  split; [apply sim_after_battery |].
  intro Hs.
  split.
  { unfold sim'. rewrite sim_after_battery.
    pose proof (Hs (clockPos (wk n))). split; lra. }
  pose proof (sim_after_battery_range random sinNow wk n Hs) as B.
  fold sim in B.
  assert (E : Qltb (battery (state sim)) 12.8 = false)
    by (apply Qltb_false; lra).
  split; [exact E |].
  split; [apply Qltb_false; lra |].
  unfold elecHealth. rewrite E. reflexivity.
Qed.

Lemma battery_follows_clock_witness :
  let wk := fun k : nat => mkWorld (2 * k) k in
  unit_sines (fun _ => 1) /\
  13.3 <= battery (getData (sim_after (fun _ => 0.5) (fun _ => 1) wk 3))
    <= 13.7 /\
  elecHealth (getData (sim_after (fun _ => 0.5) (fun _ => 1) wk 2)) = 100.
Proof.
  intro wk.
  assert (H : unit_sines (fun _ => 1)) by (intro k; split; lra).
  destruct (battery_follows_clock (fun _ => 0.5) (fun _ => 1) wk 2)
    as (_ & _ & B).
  destruct (B H) as (B1 & _ & _ & B2).
  split; [exact H |]. split; [exact B1 | exact B2].
Defined.

(** ** Sliding windows *)

Lemma tl_skipn (n : nat) (l : list Q) : tl (skipn n l) = skipn (S n) l.
Proof.
  revert l. induction n as [| n IH]; intros [| x l]; try reflexivity.
  cbn [skipn]. rewrite IH. destruct l; reflexivity.
Qed.

(** Pushing onto a window of [l] gives the next window of [l ++ [v]]. *)
Lemma push_shift_window (n : nat) (l : list Q) (v : Q) :
  (n <= length l)%nat ->
  push_shift (skipn n l) v = skipn (S n) (l ++ [v]).
Proof.
  intro H. unfold push_shift. rewrite <- tl_skipn, skipn_app.
  replace (n - length l)%nat with 0%nat by lia. reflexivity.
Qed.

Lemma updateHistory_samples (c : Channel) (st : VehicleState) (h : History) :
  samples c (updateHistory st h) = push_shift (samples c h) (reading c st).
Proof. destruct c; reflexivity. Qed.

Lemma seq_snoc (a n : nat) : seq a (S n) = seq a n ++ [(a + n)%nat].
Proof. apply seq_S. Qed.

Section Windows.

Variable random : nat -> Q.
Variable sinNow : nat -> Q.
Variable wk : nat -> World.

Lemma sim_after_samples (c : Channel) (n : nat) :
  samples c (history (sim_after random sinNow wk n))
  = skipn n (Array_fill HISTORY_SIZE (reading c initial_state)
             ++ map (channel_after random sinNow wk c) (seq 1 n)).
Proof.
  induction n as [| n IH].
  - cbn [seq map skipn]. rewrite app_nil_r. destruct c; reflexivity.
  - pose proof (tick_unfold random sinNow
                  (sim_after random sinNow wk n) (wk n)) as T.
    destruct (flip_step random _ _) as [[acc c'] w1]. cbv zeta in T.
    destruct T as (_ & _ & _ & _ & _ & _ & _ & _ & Eh & _).
    change (fst (tick random sinNow (sim_after random sinNow wk n, wk n)))
      with (sim_after random sinNow wk (S n)) in Eh.
    rewrite Eh, updateHistory_samples, IH, seq_snoc, map_app, app_assoc.
    cbn [map]. apply push_shift_window.
    rewrite length_app, Array_fill_length, length_map, length_seq. lia.
Qed.

Lemma fast_chart_data (c : Channel) (cw ch : Q) (n : nat) :
  fast_chart random sinNow c (Some (cw, ch)) wk n
  = Some (DetailedChart.mk
            (skipn n (Array_fill 60 0 ++ map (channel_after random sinNow wk c) (seq 1 n))) cw ch).
Proof.
  induction n as [| n IH].
  - cbn [fast_chart DetailedChart.new seq map skipn].
    rewrite app_nil_r. reflexivity.
  - cbn [fast_chart]. rewrite IH.
    cbn [DetailedChart.update DetailedChart.data DetailedChart.width
         DetailedChart.height].
    rewrite seq_snoc, map_app, app_assoc. cbn [map].
    rewrite push_shift_window; [reflexivity |].
    rewrite length_app, Array_fill_length, length_map, length_seq. lia.
Qed.

(** Past the fill, a window is made of samples only. *)
Lemma window_past_fill (fill : list Q) (f : nat -> Q) (m n : nat) :
  (length fill = m)%nat -> (m <= n)%nat ->
  skipn n (fill ++ map f (seq 1 n)) = map f (seq (1 + (n - m)) m).
Proof.
  intros Hl Hn. rewrite skipn_app, Hl.
  rewrite skipn_all2 by lia. cbn [app].
  rewrite skipn_map, skipn_seq. f_equal. f_equal; lia.
Qed.

End Windows.

(** X5.  Each channel of the history is a sliding window over the values
    the state took: after [n] ticks it is the last 100 entries of the
    initial fill followed by the channel's value after tick 1, tick 2,
    ..., tick [n], oldest first; once 100 ticks are made nothing of the
    fill is left and [getHistory()] holds exactly the values after the
    last 100 ticks. *)
Theorem history_is_window_of_states
    (random sinNow : nat -> Q) (wk : nat -> World) (c : Channel) (n : nat) :
  let sample := channel_after random sinNow wk c in
  let h := samples c (getHistory (sim_after random sinNow wk n)) in
  h = skipn n (Array_fill 100 (reading c initial_state)
               ++ map sample (seq 1 n)) /\
  ((100 <= n)%nat -> h = map sample (seq (1 + (n - 100)) 100)).
Proof.
  intros sample h.
  assert (E : h = skipn n (Array_fill 100 (reading c initial_state)
                           ++ map sample (seq 1 n)))
    by apply sim_after_samples.
  split; [exact E |].
  intro Hn. rewrite E. apply window_past_fill; [| exact Hn].
  apply Array_fill_length.
Qed.

Lemma history_is_window_of_states_witness :
  let random := fun _ : nat => 0.5 in
  let wk := fun k : nat => mkWorld k k in
  (100 <= 100)%nat /\
  samples Load (getHistory (sim_after random (fun _ => 0) wk 100))
  = map (fun k => reading Load (state (sim_after random (fun _ => 0) wk k)))
        (seq (1 + (100 - 100)) 100).
Proof.
  intros random wk.
  split; [apply le_n |].
  apply (history_is_window_of_states random (fun _ => 0) wk Load 100).
  apply le_n.
Defined.

(** X6.  From the 20th tick on, the rpm samples the inference takes its
    variance of, [history.rpm.slice(-20)], are the rpm of the state after
    each of the last 20 ticks, oldest first. *)
Theorem recent_rpm_is_last_20_states
    (random sinNow : nat -> Q) (wk : nat -> World) (n : nat) :
  (20 <= n)%nat ->
  slice_last 20 (h_rpm (getHistory (sim_after random sinNow wk n)))
  = map (fun k => rpm (state (sim_after random sinNow wk k)))
        (seq (1 + (n - 20)) 20).
Proof.
  intro Hn. unfold getHistory.
  pose proof (sim_after_samples random sinNow wk Rpm n) as E.
  cbn [samples reading] in E.
  pose proof (sim_after_history_full random sinNow wk n) as (L & _).
  unfold slice_last. rewrite L, E, skipn_skipn.
  unfold HISTORY_SIZE. cbn [Nat.sub].
  rewrite skipn_app, Array_fill_length.
  rewrite skipn_all2 by (rewrite Array_fill_length; lia). cbn [app].
  rewrite skipn_map, skipn_seq. f_equal. f_equal; lia.
Qed.

Lemma recent_rpm_is_last_20_states_witness :
  let random := fun _ : nat => 0.5 in
  let wk := fun k : nat => mkWorld k k in
  (20 <= 20)%nat /\
  slice_last 20 (h_rpm (getHistory (sim_after random (fun _ => 0) wk 20)))
  = map (fun k => rpm (state (sim_after random (fun _ => 0) wk k)))
        (seq (1 + (20 - 20)) 20).
Proof.
  intros random wk.
  split; [apply le_n |].
  apply (recent_rpm_is_last_20_states random (fun _ => 0) wk 20 (le_n 20)).
Defined.

(** X7.  A chart fed by the 100 ms callback keeps 60 samples.  Once 60
    callbacks have run it shows the values of its channel after the last
    60 ticks, which are the newest 60 samples of that channel of the
    history; and a chart whose canvas is missing never gets any data. *)
Theorem fast_chart_shows_history_tail
    (random sinNow : nat -> Q) (wk : nat -> World) (c : Channel)
    (cw ch : Q) (n : nat) :
  fast_chart random sinNow c None wk n = None /\
  (exists d,
     fast_chart random sinNow c (Some (cw, ch)) wk n
     = Some (DetailedChart.mk d cw ch) /\ length d = 60%nat) /\
  ((60 <= n)%nat ->
   fast_chart random sinNow c (Some (cw, ch)) wk n
   = Some (DetailedChart.mk
             (slice_last 60
                (samples c (getHistory (sim_after random sinNow wk n))))
             cw ch)).
Proof.
  split.
  { induction n as [| n IH]; [reflexivity |].
    cbn [fast_chart]. rewrite IH. reflexivity. }
  split.
  { eexists. split; [apply fast_chart_data |].
    rewrite length_skipn, length_app, Array_fill_length, length_map,
      length_seq. lia. }
  intro Hn. rewrite fast_chart_data. do 2 f_equal.
  unfold getHistory. rewrite sim_after_samples.
  unfold slice_last.
  rewrite length_skipn, length_app, Array_fill_length, length_map, length_seq.
  unfold HISTORY_SIZE. rewrite skipn_skipn.
  replace (100 + n - n - 60 + n)%nat with (40 + n)%nat by lia.
  rewrite !skipn_app, !Array_fill_length.
  rewrite (skipn_all2 (Array_fill 60 0))
    by (rewrite Array_fill_length; lia).
  rewrite (skipn_all2 (Array_fill 100 _))
    by (rewrite Array_fill_length; lia).
  cbn [app]. reflexivity.
Qed.

Lemma fast_chart_shows_history_tail_witness :
  let random := fun _ : nat => 0.5 in
  let wk := fun k : nat => mkWorld k k in
  (60 <= 60)%nat /\
  fast_chart random (fun _ => 0) Load (Some (300, 150)) wk 60
  = Some (DetailedChart.mk
            (slice_last 60
               (samples Load
                  (getHistory (sim_after random (fun _ => 0) wk 60))))
            300 150).
Proof.
  intros random wk.
  split; [apply le_n |].
  apply (fast_chart_shows_history_tail random (fun _ => 0) wk Load
           300 150 60).
  apply le_n.
Defined.

(** ** Charts *)

Lemma push_shift_last (arr : list Q) (v : Q) :
  arr <> [] ->
  nth_error (push_shift arr v) (length (push_shift arr v) - 1) = Some v.
Proof.
  intro H. rewrite push_shift_length.
  destruct arr as [| x xs]; [congruence |].
  rewrite push_shift_cons. cbn [length].
  rewrite Nat.sub_succ, Nat.sub_0_r.
  rewrite nth_error_app2 by lia. rewrite Nat.sub_diag. reflexivity.
Qed.

(** X8.  A new chart with a canvas holds 60 zeros.  [update] on a chart
    of 60 samples drops the oldest and appends the new value, so the
    chart keeps 60 samples and the value tag, which reads the last one,
    shows the value just pushed; the canvas size is not touched.  A
    chart without a canvas has no data and [update] leaves it so. *)
Theorem chart_update_keeps_60 (c : DetailedChart.t) (v cw ch : Q) :
  DetailedChart.new None = None /\
  DetailedChart.update None v = None /\
  DetailedChart.new (Some (cw, ch))
  = Some (DetailedChart.mk (repeat 0 60) cw ch) /\
  (length (DetailedChart.data c) = 60%nat ->
   exists c',
     DetailedChart.update (Some c) v = Some c' /\
     DetailedChart.data c' = tl (DetailedChart.data c) ++ [v] /\
     length (DetailedChart.data c') = 60%nat /\
     DetailedChart.current c' = Some v /\
     DetailedChart.width c' = DetailedChart.width c /\
     DetailedChart.height c' = DetailedChart.height c).
Proof.
  split; [reflexivity |]. split; [reflexivity |]. split; [reflexivity |].
  intro H. eexists. split; [reflexivity |].
  cbn [DetailedChart.data DetailedChart.width DetailedChart.height].
  assert (Hne : DetailedChart.data c <> [])
    by (intro E; rewrite E in H; discriminate).
  split.
  { destruct (DetailedChart.data c); [congruence | reflexivity]. }
  split; [rewrite push_shift_length; exact H |].
  split; [| split; reflexivity].
  unfold DetailedChart.current. cbn [DetailedChart.data].
  apply push_shift_last, Hne.
Qed.

Lemma chart_update_keeps_60_witness :
  let c := DetailedChart.mk (repeat 0 60) 300 150 in
  length (DetailedChart.data c) = 60%nat /\
  exists c',
    DetailedChart.update (Some c) 42 = Some c' /\
    length (DetailedChart.data c') = 60%nat /\
    DetailedChart.current c' = Some 42.
Proof.
  intro c.
  assert (H : length (DetailedChart.data c) = 60%nat) by reflexivity.
  split; [exact H |].
  destruct (chart_update_keeps_60 c 42 300 150) as (_ & _ & _ & F).
  destruct (F H) as (c' & E & _ & L & C & _).
  exists c'. split; [exact E |]. split; [exact L | exact C].
Defined.

Lemma maxVal_ge_10 (c : DetailedChart.t) : 10 <= DetailedChart.maxVal c.
Proof.
  unfold DetailedChart.maxVal.
  induction (DetailedChart.data c) as [| x l IH]; cbn [fold_right].
  - lra.
  - revert IH. generalize (fold_right Math_max 10 l). intros m IH.
    qclamp; lra.
Qed.

Lemma maxVal_ge_sample (c : DetailedChart.t) (v : Q) :
  In v (DetailedChart.data c) -> v <= DetailedChart.maxVal c.
Proof.
  unfold DetailedChart.maxVal.
  induction (DetailedChart.data c) as [| x l IH]; cbn [fold_right In].
  - intros [].
  - intros [E | H].
    + subst x. generalize (fold_right Math_max 10 l). intro m. qclamp; lra.
    + specialize (IH H). revert IH.
      generalize (fold_right Math_max 10 l). intros m IH. qclamp; lra.
Qed.

(** X9.  The scale of a chart is never degenerate: the top of the axis
    is at least 10 and at least every sample, so the normalisation of
    [draw] divides by a positive number, and a non-negative sample of the
    chart is normalised into [0,1]. *)
Theorem chart_scale_is_never_degenerate (c : DetailedChart.t) (v : Q) :
  10 <= DetailedChart.maxVal c /\
  0 < DetailedChart.maxVal c - DetailedChart.minVal /\
  (In v (DetailedChart.data c) ->
   v <= DetailedChart.maxVal c /\
   (0 <= v -> 0 <= DetailedChart.normalized c v <= 1)).
Proof.
  pose proof (maxVal_ge_10 c) as M.
  split; [exact M |].
  split; [unfold DetailedChart.minVal; lra |].
  intro Hin. pose proof (maxVal_ge_sample c v Hin) as Hm.
  split; [exact Hm |].
  intro Hv. unfold DetailedChart.normalized, DetailedChart.minVal.
  split.
  - apply Qle_shift_div_l; lra.
  - apply Qle_shift_div_r; lra.
Qed.

Lemma chart_scale_is_never_degenerate_witness :
  let c := DetailedChart.mk (repeat 0 59 ++ [95]) 300 150 in
  In 95 (DetailedChart.data c) /\ 0 <= 95 /\
  95 <= DetailedChart.maxVal c /\
  0 <= DetailedChart.normalized c 95 <= 1.
Proof.
  intro c.
  assert (Hin : In 95 (DetailedChart.data c)).
  { apply in_or_app. right. left. reflexivity. }
  assert (Hv : 0 <= 95) by lra.
  destruct (chart_scale_is_never_degenerate c 95) as (_ & _ & F).
  destruct (F Hin) as [M N].
  split; [exact Hin |]. split; [exact Hv |]. split; [exact M | exact (N Hv)].
Defined.

(** ** The inference and the cards, in binary64 *)

(** X10.  An inference fails exactly when the rpm history is empty.  One
    that returns has drawn exactly one random number, whichever class it
    settles on, and has not read the clock. *)
Theorem inference_draws_once
    (random : nat -> float) (Math_sqrt : float -> float)
    (e : Binary64.MLInferenceEngine) (sim : Binary64.MockOBDSimulator)
    (w : World) :
  (Binary64.runInference random Math_sqrt e sim w = None
   <-> Binary64.h_rpm (Binary64.history sim) = []) /\
  (forall res e' w',
     Binary64.runInference random Math_sqrt e sim w = Some (res, e', w') ->
     w' = mkWorld (S (rngPos w)) (clockPos w)).
Proof.
  split.
  - split; intro H.
    + destruct (Binary64.h_rpm (Binary64.history sim)) as [| x xs] eqn:E;
        [reflexivity | exfalso].
      destruct (history64_defined sim) as [v Hv]; [rewrite E; discriminate |].
      rewrite (runInference64_result random Math_sqrt e sim w v Hv) in H.
      discriminate.
    + unfold Binary64.runInference. rewrite H. reflexivity.
  - intros res e' w' H.
    assert (Hne : Binary64.h_rpm (Binary64.history sim) <> []).
    { intro E. unfold Binary64.runInference in H. rewrite E in H.
      discriminate. }
    destruct (history64_defined sim Hne) as [v Hv].
    rewrite (runInference64_result random Math_sqrt e sim w v Hv) in H.
    injection H as _ _ <-. reflexivity.
Qed.

Lemma inference_draws_once_witness :
  exists res e' w',
    Binary64.runInference (fun _ => 0.5%float) PrimFloat.sqrt
      Binary64.new_engine Binary64.new_simulator (mkWorld 7 3)
    = Some (res, e', w') /\
    w' = mkWorld 8 3.
Proof.
  destruct (Binary64.runInference (fun _ => 0.5%float) PrimFloat.sqrt
              Binary64.new_engine Binary64.new_simulator (mkWorld 7 3))
    as [[[res e'] w'] |] eqn:E; [| vm_compute in E; discriminate].
  exists res, e', w'. split; [reflexivity |].
  destruct (inference_draws_once (fun _ => 0.5%float) PrimFloat.sqrt
              Binary64.new_engine Binary64.new_simulator (mkWorld 7 3))
    as [_ H].
  exact (H res e' w' E).
Defined.

Lemma aggression_loop64_falling (rest : list float) :
  forall prev sumDelta,
    falling (prev :: rest) ->
    Binary64.aggression_loop prev rest sumDelta = sumDelta.
Proof.
  induction rest as [| x rest IH]; intros prev s H; [reflexivity |].
  destruct H as [Hx Hrest]. cbn [Binary64.aggression_loop].
  rewrite Hx. apply IH, Hrest.
Qed.

(** X11.  Only increases count: a throttle history in which no sample
    exceeds the one before it has aggression 0, however steeply it
    falls. *)
Theorem aggression_ignores_decreases (arr : list float) :
  falling arr -> Binary64.calculateAggression arr = 0%float.
Proof.
  intro H. unfold Binary64.calculateAggression.
  destruct arr as [| x rest]; [reflexivity |].
  rewrite (aggression_loop64_falling rest x 0%float H). reflexivity.
Qed.

Lemma aggression_ignores_decreases_witness :
  falling [85; 60; 60; 10]%float /\
  Binary64.calculateAggression [85; 60; 60; 10]%float = 0%float.
Proof.
  assert (H : falling [85; 60; 60; 10]%float).
  { cbn [falling]. repeat split; reflexivity. }
  split; [exact H | exact (aggression_ignores_decreases _ H)].
Defined.

(** X12.  Only the coolant can take the hygiene score far down: when
    the coolant does not exceed 100 the score is between 95 and 100
    whatever the rpm, the load and the battery, and the health card shows
    the green colour, risk Low and the all-systems summary. *)
Theorem cool_engine_is_low_risk
    (random : nat -> float) (Math_sqrt : float -> float)
    (e : Binary64.MLInferenceEngine) (sim : Binary64.MockOBDSimulator)
    (w : World)
    (res : Binary64.InferenceResult) (e' : Binary64.MLInferenceEngine)
    (w' : World) :
  Binary64.runInference random Math_sqrt e sim w = Some (res, e', w') ->
  Binary64.gtb (Binary64.coolant (Binary64.state sim)) 100 = false ->
  let h := Binary64.hygiene (Binary64.scores res) in
  (95 <=? h)%float = true /\ (h <=? 100)%float = true /\
  health_card h
  = ("#00ff41", "Low",
     "All systems operating within optimal parameters.")%string.
Proof.
  intros H Hc.
  assert (Hne : Binary64.h_rpm (Binary64.history sim) <> []).
  { intro E. unfold Binary64.runInference in H. rewrite E in H.
    discriminate. }
  destruct (history64_defined sim Hne) as [v Hv].
  rewrite (runInference64_result random Math_sqrt e sim w v Hv) in H.
  injection H as <- _ _.
  cbn [Binary64.scores Binary64.hygiene].
  unfold Binary64.thermalHealth, Binary64.engineHealth, Binary64.elecHealth.
  rewrite Hc.
  destruct (Binary64.gtb (Binary64.rpm (Binary64.state sim)) 4500);
    destruct (Binary64.gtb (Binary64.load (Binary64.state sim)) 90);
    destruct (Binary64.battery (Binary64.state sim) <? 12.8)%float;
    cbv zeta; split; try split; vm_compute; reflexivity.
Qed.

Lemma cool_engine_is_low_risk_witness :
  let sim := Binary64.simulator_with
               (Binary64.mkState 5000 120 80 95 100 12.5 20)
               (Binary64.Array_fill 20 2000) (Binary64.Array_fill 20 0) in
  Binary64.gtb (Binary64.coolant (Binary64.state sim)) 100 = false /\
  exists res e' w',
    Binary64.runInference (fun _ => 0.5%float) PrimFloat.sqrt
      Binary64.new_engine sim world0 = Some (res, e', w') /\
    Binary64.hygiene (Binary64.scores res) = 95%float /\
    snd (fst (health_card (Binary64.hygiene (Binary64.scores res))))
    = "Low"%string.
Proof.
  intro sim.
  assert (Hc : Binary64.gtb (Binary64.coolant (Binary64.state sim)) 100
               = false) by reflexivity.
  split; [exact Hc |].
  destruct (Binary64.runInference (fun _ => 0.5%float) PrimFloat.sqrt
              Binary64.new_engine sim world0)
    as [[[res e'] w'] |] eqn:E; [| vm_compute in E; discriminate].
  exists res, e', w'. split; [reflexivity |].
  destruct (cool_engine_is_low_risk (fun _ => 0.5%float) PrimFloat.sqrt
              Binary64.new_engine sim world0 res e' w' E Hc)
    as (_ & _ & H3).
  split; [| rewrite H3; reflexivity].
  vm_compute in E. injection E as <- _ _. reflexivity.
Defined.

(** X13.  The risk of the health card, for any score: High when the
    score is below 60, Medium when it is below 80 and not below 60, Low
    when it is below neither; the colour is red exactly for High and
    green exactly for Low, and the summary asks for maintenance exactly
    for High. *)
Theorem health_risk_bands (hygieneScore : float) :
  let '(color, risk, summary) := health_card hygieneScore in
  (risk = "High"%string <-> (hygieneScore <? 60)%float = true) /\
  (risk = "Medium"%string <->
   (hygieneScore <? 80)%float = true /\ (hygieneScore <? 60)%float = false) /\
  (risk = "Low"%string <->
   (hygieneScore <? 80)%float = false /\ (hygieneScore <? 60)%float = false) /\
  (color = "#ff2a2a"%string <-> risk = "High"%string) /\
  (color = "#00ff41"%string <-> risk = "Low"%string) /\
  (summary = "Critical system stress detected. Maintainence required."%string
   <-> risk = "High"%string).
Proof.
  unfold health_card.
  destruct (hygieneScore <? 80)%float; destruct (hygieneScore <? 60)%float;
    cbn; repeat split; intros;
    try discriminate; try reflexivity;
    try match goal with
        | H : _ /\ _ |- _ => destruct H; discriminate
        end.
Qed.

(** X14.  The driver card follows the cascade of the classifier: the
    fuel impact is +12% exactly when the throttle aggression exceeds 60,
    -5% exactly when the class is the economical one (aggression not
    above 60, below 20, at a speed above 30), and Neutral for the two
    other classes. *)
Theorem driver_card_follows_class (ta spd vol j : float) :
  let '(cls, _, _) := Binary64.classify ta spd vol j in
  driver_card cls
  = (if Binary64.gtb ta 60 then ("+12% Consumption", "#ff2a2a")
     else if (ta <? 20)%float && Binary64.gtb spd 30
          then ("-5% Consumption", "#00ff41")
          else ("Neutral", "#fff"))%string.
Proof.
  unfold Binary64.classify.
  destruct (Binary64.gtb ta 60); [reflexivity |].
  destruct ((ta <? 20)%float && Binary64.gtb spd 30); [reflexivity |].
  destruct (Binary64.gtb vol 8); reflexivity.
Qed.

(** X15.  The status of the anomaly monitor, for any anomaly flag and
    data: the class is critical exactly when an anomaly is flagged and
    warning exactly when the coolant exceeds 100 without one; the text
    is WARNING whenever the coolant exceeds 100, so that a thermal
    warning replaces the anomaly text while the class stays critical;
    ANOMALY DETECTED is shown only when the coolant does not exceed 100.
    The thermal warning is shown exactly when the temperature gauge is
    red.  The list has two entries, and a third exactly when the battery
    is below 12.5. *)
Theorem anomaly_monitor_status
    (isAnomaly : bool) (d : Binary64.VehicleState) :
  let hot := Binary64.gtb (Binary64.coolant d) 100 in
  let '(status, statusClass, items) := anomaly_monitor isAnomaly d in
  (statusClass = "critical"%string <-> isAnomaly = true) /\
  (statusClass = "warning"%string <-> isAnomaly = false /\ hot = true) /\
  (status = "WARNING"%string <-> hot = true) /\
  (status = "ANOMALY DETECTED"%string <-> isAnomaly = true /\ hot = false) /\
  (status = "SYSTEM NORMAL"%string <-> isAnomaly = false /\ hot = false) /\
  (status = "WARNING"%string <-> tempStroke d = "#ff2a2a"%string) /\
  length items
  = (if (Binary64.battery d <? 12.5)%float then 3 else 2)%nat.
Proof.
  unfold anomaly_monitor, tempStroke.
  destruct isAnomaly;
    destruct (Binary64.gtb (Binary64.coolant d) 100);
    destruct (Binary64.battery d <? 12.5)%float;
    try destruct (Binary64.gtb (Binary64.coolant d) 90);
    cbn; repeat split; intros;
    try discriminate; try reflexivity;
    try match goal with
        | H : _ /\ _ |- _ => destruct H; discriminate
        end.
Qed.

(** ** The simulator in binary64 *)

Lemma push_shift64_length (arr : list float) (v : float) :
  length (Binary64.push_shift arr v) = length arr.
Proof.
  unfold Binary64.push_shift. destruct arr as [| x xs]; [reflexivity |].
  cbn [app tl]. rewrite length_app. cbn [length]. lia.
Qed.

Lemma tick64_history (random sinNow : nat -> float)
    (sw : Binary64.MockOBDSimulator * World) :
  let sim' := fst (Binary64.tick random sinNow sw) in
  Binary64.history sim'
  = Binary64.updateHistory (Binary64.state sim')
                           (Binary64.history (fst sw)).
Proof.
  destruct sw as [sim w]. unfold Binary64.tick.
  destruct (Binary64.flip_step random sim w) as [[acc c] w1].
  reflexivity.
Qed.

Lemma ticks64_history_full (random sinNow : nat -> float) (n : nat)
    (sw : Binary64.MockOBDSimulator * World) (c : nat) :
  let full := fun h : Binary64.History =>
    length (Binary64.h_rpm h) = c /\ length (Binary64.h_speed h) = c /\
    length (Binary64.h_load h) = c /\ length (Binary64.h_coolant h) = c /\
    length (Binary64.h_throttle h) = c /\ length (Binary64.h_fuelEff h) = c in
  full (Binary64.history (fst sw)) ->
  full (Binary64.history (fst (Binary64.ticks random sinNow n sw))).
Proof.
  intros full H. induction n as [| n IH]; [exact H |].
  cbn [Binary64.ticks]. rewrite tick64_history.
  unfold full, Binary64.updateHistory in *.
  cbn [Binary64.h_rpm Binary64.h_speed Binary64.h_load Binary64.h_coolant
       Binary64.h_throttle Binary64.h_fuelEff].
  rewrite !push_shift64_length. exact IH.
Qed.

(** X16.  With the Numbers of the program too, whatever the draws and
    the clock, NaN and infinities included: after any number of ticks of
    a fresh simulator every channel of the history holds exactly 100
    samples, the inference is handed 20 rpm samples, and it returns. *)
Theorem binary64_history_stays_full
    (random sinNow draws : nat -> float) (Math_sqrt : float -> float)
    (n : nat) (e : Binary64.MLInferenceEngine) (w : World) :
  let sim := fst (Binary64.run random sinNow n) in
  let h := Binary64.history sim in
  length (Binary64.h_rpm h) = 100%nat /\
  length (Binary64.h_speed h) = 100%nat /\
  length (Binary64.h_load h) = 100%nat /\
  length (Binary64.h_coolant h) = 100%nat /\
  length (Binary64.h_throttle h) = 100%nat /\
  length (Binary64.h_fuelEff h) = 100%nat /\
  length (Binary64.slice_last 20 (Binary64.h_rpm h)) = 20%nat /\
  exists res e' w',
    Binary64.runInference draws Math_sqrt e sim w = Some (res, e', w').
Proof.
  intros sim h.
  pose proof (ticks64_history_full random sinNow n
                (Binary64.new_simulator, world0) 100) as F.
  cbv zeta in F.
  destruct F as (F1 & F2 & F3 & F4 & F5 & F6).
  { cbn [fst Binary64.new_simulator Binary64.history Binary64.h_rpm
         Binary64.h_speed Binary64.h_load Binary64.h_coolant
         Binary64.h_throttle Binary64.h_fuelEff].
    unfold Binary64.Array_fill. rewrite !repeat_length.
    repeat split; reflexivity. }
  fold (Binary64.run random sinNow n) in F1, F2, F3, F4, F5, F6.
  fold sim in F1, F2, F3, F4, F5, F6. fold h in F1, F2, F3, F4, F5, F6.
  split; [exact F1 |]. split; [exact F2 |]. split; [exact F3 |].
  split; [exact F4 |]. split; [exact F5 |]. split; [exact F6 |].
  split; [apply slice_last64_length; lia |].
  destruct (history64_defined sim) as [v Hv].
  { fold h. intro E. rewrite E in F1. discriminate. }
  do 3 eexists. apply (runInference64_result draws Math_sqrt e sim w v Hv).
Qed.
